(** * scripts/api.py: the ControlNet HTTP handlers

    A shallow embedding of [scripts/api.py] and the properties of its
    handlers.  The file owns three encoding helpers and two request
    handlers with logic of their own ([detect] and [render_openpose_json]);
    everything else is reached through collaborators that other modules
    own (the preprocessor registry, PIL, torch, the pose drawing routines).

    Conventions of the embedding:
    - Python [bytes] are [list byte]; a Python [str] is held as the
      sequence of its UTF-8 code units, a Rocq [string];
    - a Python value whose run-time type the code inspects is a [PyObj];
    - a handler is a computation over the host's state: it reads and
      updates the world the collaborators live in, records each call it
      makes to a collaborator, and either returns or raises;
    - collaborators are the fields of a class.  They are taken on the
      runs on which they return: nothing in this file catches an
      exception, so a collaborator that raises ends the request with that
      exception, whatever the handler did before. *)

From Stdlib Require Import Strings.Byte NArith ZArith List Lia.
From stdpp Require Import base option strings pretty gmap list.

Local Open Scope string_scope.
Local Open Scope list_scope.

(** ** Standard library pieces the helpers are built from *)

(** *** [base64.b64encode] and [base64.b64decode] (RFC 4648, section 4) *)
Module Base64.

Local Open Scope N_scope.

Definition alphabet : list byte :=
  String.list_byte_of_string
    "ABCDEFGHIJKLMNOPQRSTUVWXYZabcdefghijklmnopqrstuvwxyz0123456789+/".

Definition pad : byte := "="%byte.

(** The character of a 6-bit value. *)
Definition char_of (i : N) : byte := nth (N.to_nat i) alphabet pad.

Fixpoint position (c : byte) (tbl : list byte) (i : N) : option N :=
  match tbl with
  | [] => None
  | d :: tbl' => if Byte.eqb c d then Some i else position c tbl' (i + 1)
  end.

(** The 6-bit value of a character; [None] outside the alphabet. *)
Definition index_of (c : byte) : option N := position c alphabet 0.

(** Three input bytes as one 24-bit group. *)
Definition group24 (a b c : byte) : N :=
  Byte.to_N a * 65536 + Byte.to_N b * 256 + Byte.to_N c.

Definition sextets (n : N) : list byte :=
  [char_of (n / 262144); char_of (n / 4096 mod 64);
   char_of (n / 64 mod 64); char_of (n mod 64)].

Fixpoint b64encode (bs : list byte) : list byte :=
  match bs with
  | [] => []
  | [a] =>
      let n := group24 a "000"%byte "000"%byte in
      [char_of (n / 262144); char_of (n / 4096 mod 64); pad; pad]
  | [a; b] =>
      let n := group24 a b "000"%byte in
      [char_of (n / 262144); char_of (n / 4096 mod 64);
       char_of (n / 64 mod 64); pad]
  | a :: b :: c :: rest => sextets (group24 a b c) ++ b64encode rest
  end.

Definition octets (n : N) (count : nat) : option (list byte) :=
  match Byte.of_N (n / 65536), Byte.of_N (n / 256 mod 256),
        Byte.of_N (n mod 256) with
  | Some a, Some b, Some c => Some (take count [a; b; c])
  | _, _, _ => None
  end.

(** A quantum of four alphabet characters. *)
Definition decode_quad (c1 c2 c3 c4 : byte) : option (list byte) :=
  match index_of c1, index_of c2, index_of c3, index_of c4 with
  | Some i1, Some i2, Some i3, Some i4 =>
      octets (((i1 * 64 + i2) * 64 + i3) * 64 + i4) 3
  | _, _, _, _ => None
  end.

(** The final quantum, which alone may carry padding. *)
Definition decode_last (c1 c2 c3 c4 : byte) : option (list byte) :=
  if Byte.eqb c4 pad then
    if Byte.eqb c3 pad then
      match index_of c1, index_of c2 with
      | Some i1, Some i2 => octets ((i1 * 64 + i2) * 4096) 1
      | _, _ => None
      end
    else
      match index_of c1, index_of c2, index_of c3 with
      | Some i1, Some i2, Some i3 => octets (((i1 * 64 + i2) * 64 + i3) * 64) 2
      | _, _, _ => None
      end
  else decode_quad c1 c2 c3 c4.

(** [b64decode(s, validate=True)]: [None] stands for [binascii.Error]. *)
Fixpoint b64decode (cs : list byte) : option (list byte) :=
  match cs with
  | [] => Some []
  | c1 :: c2 :: c3 :: c4 :: rest =>
      match rest with
      | [] => decode_last c1 c2 c3 c4
      | _ :: _ =>
          match decode_quad c1 c2 c3 c4, b64decode rest with
          | Some front, Some back => Some (front ++ back)
          | _, _ => None
          end
      end
  | _ => None
  end.

(** The 6-bit values. *)
Definition sixbits : list N := map N.of_nat (seq 0 64).

End Base64.

(** *** [io.BytesIO] *)
Module BytesIO.

Record t := mk { contents : list byte; pos : nat }.

(** [io.BytesIO()] *)
Definition new : t := {| contents := []; pos := 0 |}.

(** [buffer.write(data)]: overwrite from the current position, extending
    the buffer where the data reaches past its end; a position past the
    end is first reached by filling with null bytes. *)
Definition write (data : list byte) (b : t) : t :=
  let filled :=
    contents b ++ replicate (pos b - length (contents b)) "000"%byte in
  {| contents := take (pos b) filled ++ data
                 ++ drop (pos b + length data) filled;
     pos := pos b + length data |}.

(** [buffer.seek(n)] *)
Definition seek (n : nat) (b : t) : t := {| contents := contents b; pos := n |}.

(** [buffer.getvalue()]: the whole contents, whatever the position. *)
Definition getvalue (b : t) : list byte := contents b.

End BytesIO.

(** [bytes.decode("utf-8")] on well-formed input keeps the code units. *)
Definition decode_utf8 (bs : list byte) : string := String.string_of_list_byte bs.

(** [str.encode("utf-8")] *)
Definition encode_utf8 (s : string) : list byte := String.list_byte_of_string s.

(** [needle in hay] on two [str]. *)
Fixpoint str_contains (needle hay : string) : bool :=
  if String.prefix needle hay then true
  else match hay with
       | EmptyString => false
       | String _ hay' => str_contains needle hay'
       end.

(** ** The values and collaborators of the module *)

(** The data of other modules that this file only passes around. *)
Class Opaque := {
  PILImage : Type;          (* PIL.Image.Image *)
  Ndarray : Type;           (* numpy.ndarray *)
  Tensor : Type;            (* torch.Tensor *)
  Float : Type;             (* float *)
  Json : Type;              (* the dict a pose detector hands to its callback *)
  HumanPoseResult : Type;   (* annotator.openpose *)
  AnimalPoseResult : Type;  (* annotator.openpose *)
  World : Type              (* what detectors and unload hooks act on *)
}.

(** A Python value as far as [isinstance] tells its kinds apart. *)
Inductive PyObj `{Opaque} : Type :=
  | PyStr (s : string)
  | PyImage (im : PILImage)
  | PyArray (a : Ndarray)
  | PyTensor (t : Tensor)
  | PyInt (z : Z)
  | PyNone.

(** [external_code.ControlNetUnit], the fields [detect] sets and reads. *)
Record ControlNetUnit `{Opaque} := {
  module : string;
  processor_res : Z;
  threshold_a : Float;
  threshold_b : Float
}.

(** [Person] and [PoseData], the request shapes of [render_openpose_json]. *)
Record Person `{Opaque} := {
  pose_keypoints_2d : list Float;
  hand_right_keypoints_2d : option (list Float);
  hand_left_keypoints_2d : option (list Float);
  face_keypoints_2d : option (list Float)
}.

Record PoseData `{Opaque} := {
  people : list Person;
  canvas_width : Z;
  canvas_height : Z
}.

(** What one call of a preprocessor amounts to for its caller: the pair it
    returns and the arguments it passed, in order, to [json_pose_callback]. *)
Record DetectorRun `{Opaque} := {
  detected_map : PyObj;
  is_image : bool;
  callback_args : list Json
}.

(** A preprocessor: [processor_module(img, res=, thr_a=, thr_b=,
    json_pose_callback=, low_vram=)], acting on the world. *)
Definition Detector `{Opaque} : Type :=
  Ndarray -> Z -> Float -> Float -> bool -> World -> DetectorRun * World.

(** The functions of other modules that the helpers and handlers call. *)
Class Collaborators `{Opaque} := {
  encode_pil_to_base64 : PILImage -> string;        (* modules.api.api *)
  Image_fromarray : Ndarray -> PILImage;            (* PIL.Image.fromarray *)
  torch_save : PyObj -> list byte;                  (* the bytes torch.save writes *)
  torch_load : list byte -> option PyObj;           (* torch.load, the client's side *)
  to_base64_nparray : string -> Ndarray;            (* external_code *)
  bound_check_params : ControlNetUnit -> ControlNetUnit;
  decode_json_as_poses :
    PoseData -> list HumanPoseResult * list AnimalPoseResult * Z * Z;
  draw_poses : list HumanPoseResult -> Z -> Z -> Ndarray;
  draw_animalposes : list AnimalPoseResult -> Z -> Z -> Ndarray
}.

(** [scripts.global_state], the tables [detect] reads. *)
Record GlobalState `{Opaque} := {
  reverse_preprocessor_aliases : gmap string string;
  cn_preprocessor_unloadable : gmap string (World -> World)
}.

(** A call the module makes to a collaborator. *)
Inductive Call `{Opaque} : Type :=
  | LoggerInfo (msg : string)
  | NewControlNetUnit (u : ControlNetUnit)
  | BoundCheckParams (u : ControlNetUnit)
  | ToBase64Nparray (input_image : string)
  | ProcessorModule (name : string) (img : Ndarray) (res : Z)
                    (thr_a thr_b : Float) (low_vram : bool)
  | Unload (name : string)
  | DecodeJsonAsPoses (pose : PoseData)
  | DrawPoses (poses : list HumanPoseResult) (H W : Z)
  | DrawAnimalposes (animals : list AnimalPoseResult) (H W : Z).

(** The state a request runs in. *)
Record Host `{Opaque} := {
  world : World;
  calls : list Call   (* oldest first *)
}.

Inductive Exn :=
  | HTTPException (status_code : Z) (detail : string)
  | AssertionError
  | KeyError (key : string)
  | UnboundLocalError (name : string).

(** A value of a response dict. *)
Inductive RespValue `{Opaque} : Type :=
  | VStr (s : string)
  | VStrList (l : list string)
  | VPoses (l : list Json).

(** ** Computations that act on the host and may raise *)
Module Handler.

Definition M `{Opaque} (A : Type) : Type := Host -> (Exn + A) * Host.

Definition ret `{Opaque} {A} (a : A) : M A := fun h => (inr a, h).

Definition raise `{Opaque} {A} (e : Exn) : M A := fun h => (inl e, h).

Definition bind `{Opaque} {A B} (m : M A) (k : A -> M B) : M B :=
  fun h => match m h with
           | (inr a, h') => k a h'
           | (inl e, h') => (inl e, h')
           end.

(** Record a call to a collaborator. *)
Definition call `{Opaque} (c : Call) : M unit :=
  fun h => (inr tt, {| world := world h; calls := calls h ++ [c] |}).

(** Let a collaborator act on the world. *)
Definition act `{Opaque} {A} (f : World -> A * World) : M A :=
  fun h => let (a, w) := f (world h) in
           (inr a, {| world := w; calls := calls h |}).

(** [assert cond] *)
Definition assert `{Opaque} (cond : bool) : M unit :=
  if cond then ret tt else raise AssertionError.

End Handler.

Import Handler.

Notation "x <- m ;; k" := (bind m (fun x => k))
  (at level 100, m at next level, right associativity).
Notation "m ;;; k" := (bind m (fun _ => k))
  (at level 100, right associativity).

(** [for x in xs: st = body(st, x)]: the loops and comprehensions of the
    handlers, with the variables the body updates as the loop state. *)
Fixpoint for_each {O : Opaque} {A S : Type}
    (body : S -> A -> M S) (xs : list A) (st : S) : M S :=
  match xs with
  | [] => ret st
  | x :: xs' => st' <- body st x ;; for_each body xs' st'
  end.

(** ** The module *)
Section Api.

Context {O : Opaque} {C : Collaborators}.

(** A response dict. *)
Definition Response : Type := gmap string RespValue.

(** *** The encoding helpers *)

Definition encode_np_to_base64 (image : Ndarray) : string :=
  let pil := Image_fromarray image in
  encode_pil_to_base64 pil.

Definition encode_to_base64 (image : PyObj) : string :=
  match image with
  | PyStr s => s
  | PyImage im => encode_pil_to_base64 im
  | PyArray a => encode_np_to_base64 a
  | _ => ""
  end.

Definition encode_tensor_to_base64 (obj : PyObj) : string :=
  let buffer := BytesIO.new in
  let buffer := BytesIO.write (torch_save obj) buffer in
  let buffer := BytesIO.seek 0 buffer in
  decode_utf8 (Base64.b64encode (BytesIO.getvalue buffer)).

(** *** [detect] *)

(** The class [JsonAcceptor] of the loop body. *)
Record JsonAcceptor := { value : option Json }.

Definition JsonAcceptor_init : JsonAcceptor := {| value := None |}.

Definition accept (self : JsonAcceptor) (json_dict : Json) : JsonAcceptor :=
  {| value := Some json_dict |}.

(** The variables the loop of [detect] assigns; [is_image] is unbound
    until the first iteration has run. *)
Record DetectVars := {
  results : list PyObj;
  poses : list Json;
  is_image_var : option bool
}.

Definition excluded_modules : list string :=
  ["clip_vision"; "revision_clipvision"; "revision_ignore_prompt"].

(** The body of [for input_image in controlnet_input_images]. *)
Definition detect_body (processor_module : Detector)
    (controlnet_module : string) (unit : ControlNetUnit) (low_vram : bool)
    (vars : DetectVars) (input_image : string) : M DetectVars :=
  call (ToBase64Nparray input_image) ;;;
  let img := to_base64_nparray input_image in
  let json_acceptor := JsonAcceptor_init in
  call (ProcessorModule controlnet_module img (processor_res unit)
          (threshold_a unit) (threshold_b unit) low_vram) ;;;
  run <- act (processor_module img (processor_res unit) (threshold_a unit)
                (threshold_b unit) low_vram) ;;
  let json_acceptor := fold_left accept (callback_args run) json_acceptor in
  let results' := results vars ++ [detected_map run] in
  if str_contains "openpose" controlnet_module then
    match value json_acceptor with
    | None => raise AssertionError
    | Some v =>
        ret {| results := results'; poses := poses vars ++ [v];
               is_image_var := Some (is_image run) |}
    end
  else
    ret {| results := results'; poses := poses vars;
           is_image_var := Some (is_image run) |}.

Definition detect (cached_cn_preprocessors : gmap string Detector)
    (global_state : GlobalState)
    (controlnet_module : string) (controlnet_input_images : list string)
    (controlnet_processor_res : Z)
    (controlnet_threshold_a controlnet_threshold_b : Float)
    (low_vram : bool) : M Response :=
  let controlnet_module :=
    default controlnet_module
      (reverse_preprocessor_aliases global_state !! controlnet_module) in
  if bool_decide (cached_cn_preprocessors !! controlnet_module = None) then
    raise (HTTPException 422 "Module not available")
  else if bool_decide (controlnet_module ∈ excluded_modules) then
    raise (HTTPException 422 "Module not supported")
  else if Nat.eqb (length controlnet_input_images) 0 then
    raise (HTTPException 422 "No image selected")
  else
    call (LoggerInfo ("Detecting " +:+ pretty (length controlnet_input_images)
                      +:+ " images with the " +:+ controlnet_module
                      +:+ " module.")) ;;;
    let unit := {| module := controlnet_module;
                   processor_res := controlnet_processor_res;
                   threshold_a := controlnet_threshold_a;
                   threshold_b := controlnet_threshold_b |} in
    call (NewControlNetUnit unit) ;;;
    call (BoundCheckParams unit) ;;;
    let unit := bound_check_params unit in
    match cached_cn_preprocessors !! controlnet_module with
    | None => raise (KeyError controlnet_module)
    | Some processor_module =>
        vars <- for_each
                  (detect_body processor_module controlnet_module unit low_vram)
                  controlnet_input_images
                  {| results := []; poses := []; is_image_var := None |} ;;
        match cn_preprocessor_unloadable global_state !! controlnet_module with
        | Some unload =>
            call (Unload controlnet_module) ;;;
            act (fun w => (tt, unload w))
        | None => ret tt
        end ;;;
        let res : Response := {[ "info" := VStr "Success" ]} in
        match is_image_var vars with
        | None => raise (UnboundLocalError "is_image")
        | Some true =>
            let res := <[ "images" :=
                          VStrList (map encode_to_base64 (results vars)) ]> res in
            match poses vars with
            | [] => ret res
            | _ :: _ => ret (<[ "poses" := VPoses (poses vars) ]> res)
            end
        | Some false =>
            ret (<[ "tensor" :=
                    VStrList (map encode_tensor_to_base64 (results vars)) ]> res)
        end
    end.

(** *** [render_openpose_json] *)

Definition draw (poses : list HumanPoseResult)
    (animals : list AnimalPoseResult) (H W : Z) : M Ndarray :=
  match poses with
  | _ :: _ =>
      assert (Nat.eqb (length animals) 0) ;;;
      call (DrawPoses poses H W) ;;;
      ret (draw_poses poses H W)
  | [] =>
      call (DrawAnimalposes animals H W) ;;;
      ret (draw_animalposes animals H W)
  end.

(** One element of the comprehension:
    [encode_to_base64(draw( *decode_json_as_poses(pose.dict())))]. *)
Definition render_body (images : list string) (pose : PoseData)
    : M (list string) :=
  call (DecodeJsonAsPoses pose) ;;;
  let '(poses, animals, H, W) := decode_json_as_poses pose in
  img <- draw poses animals H W ;;
  ret (images ++ [encode_to_base64 (PyArray img)]).

Definition render_openpose_json (pose_data : list PoseData) : M Response :=
  match pose_data with
  | [] => ret {[ "info" := VStr "No pose data detected." ]}
  | _ :: _ =>
      images <- for_each render_body pose_data [] ;;
      ret (<[ "info" := VStr "Success" ]>
             {[ "images" := VStrList images ]})
  end.

End Api.

(** ** What the statements below are phrased with *)
Section Reading.

Context {O : Opaque} {C : Collaborators}.

(** The name after alias resolution:
    [reverse_preprocessor_aliases.get(name, name)]. *)
Definition canonical (global_state : GlobalState) (name : string) : string :=
  default name (reverse_preprocessor_aliases global_state !! name).

(** The parameter object the loop of [detect] reads. *)
Definition checked_unit (name : string) (res : Z) (thr_a thr_b : Float)
    : ControlNetUnit :=
  bound_check_params {| module := name; processor_res := res;
                        threshold_a := thr_a; threshold_b := thr_b |}.

(** What the preprocessor answers, image after image, from a given world. *)
Fixpoint detector_runs (p : Detector) (u : ControlNetUnit) (low_vram : bool)
    (images : list string) (w : World) : list DetectorRun :=
  match images with
  | [] => []
  | i :: rest =>
      let (r, w') := p (to_base64_nparray i) (processor_res u) (threshold_a u)
                       (threshold_b u) low_vram w in
      r :: detector_runs p u low_vram rest w'
  end.

(** The world the preprocessor leaves behind. *)
Fixpoint world_after (p : Detector) (u : ControlNetUnit) (low_vram : bool)
    (images : list string) (w : World) : World :=
  match images with
  | [] => w
  | i :: rest =>
      let (r, w') := p (to_base64_nparray i) (processor_res u) (threshold_a u)
                       (threshold_b u) low_vram w in
      world_after p u low_vram rest w'
  end.

(** The pose data a run leaves in the callback sink: the last dict handed
    over, if any. *)
Definition delivered (r : DetectorRun) : option Json := last (callback_args r).

(** The call [detect] makes to the preprocessor for one input image. *)
Definition processor_call (name : string) (u : ControlNetUnit)
    (low_vram : bool) (input_image : string) : Call :=
  ProcessorModule name (to_base64_nparray input_image) (processor_res u)
    (threshold_a u) (threshold_b u) low_vram.

(** The calls the loop of [detect] makes when it runs to its end. *)
Definition loop_calls (name : string) (u : ControlNetUnit) (low_vram : bool)
    (images : list string) : list Call :=
  flat_map (fun i => [ToBase64Nparray i; processor_call name u low_vram i])
           images.

(** What [detect] has recorded when the loop starts. *)
Definition preamble_calls (name : string) (images : list string) (res : Z)
    (thr_a thr_b : Float) : list Call :=
  let unit := {| module := name; processor_res := res;
                 threshold_a := thr_a; threshold_b := thr_b |} in
  [LoggerInfo ("Detecting " +:+ pretty (length images)
               +:+ " images with the " +:+ name +:+ " module.");
   NewControlNetUnit unit; BoundCheckParams unit].

(** The call to the unload hook, when the registry has one for the module. *)
Definition unload_calls (global_state : GlobalState) (name : string)
    : list Call :=
  match cn_preprocessor_unloadable global_state !! name with
  | Some _ => [Unload name]
  | None => []
  end.

Definition is_processor_call (c : Call) : bool :=
  match c with ProcessorModule _ _ _ _ _ _ => true | _ => false end.

Definition is_draw_call (c : Call) : bool :=
  match c with DrawPoses _ _ _ | DrawAnimalposes _ _ _ => true | _ => false end.

(** A payload whose decoded structure holds human and animal poses at once. *)
Definition mixed (pose : PoseData) : bool :=
  let '(poses, animals, _, _) := decode_json_as_poses pose in
  match poses, animals with
  | _ :: _, _ :: _ => true
  | _, _ => false
  end.

(** The drawing routine [draw] calls for a payload that is not mixed. *)
Definition draw_call (pose : PoseData) : Call :=
  let '(poses, animals, H, W) := decode_json_as_poses pose in
  match poses with
  | _ :: _ => DrawPoses poses H W
  | [] => DrawAnimalposes animals H W
  end.

(** The calls [render_openpose_json] makes for one payload. *)
Definition payload_calls (pose : PoseData) : list Call :=
  DecodeJsonAsPoses pose :: (if mixed pose then [] else [draw_call pose]).

(** The raster the drawing routines give for a payload. *)
Definition rendered (pose : PoseData) : Ndarray :=
  let '(poses, animals, H, W) := decode_json_as_poses pose in
  match poses with
  | _ :: _ => draw_poses poses H W
  | [] => draw_animalposes animals H W
  end.

(** The client's side of the tensor transport, in the words of the
    specification: base64-decode the string, then deserialize the bytes
    with the framework's loader. *)
Definition decode_tensor_from_base64 (s : string) : option PyObj :=
  match Base64.b64decode (encode_utf8 s) with
  | Some data => torch_load data
  | None => None
  end.

End Reading.

(** ** A small host to run the handlers on *)
Module Demo.

Definition opaque : Opaque :=
  {| PILImage := string; Ndarray := string; Tensor := list byte; Float := Z;
     Json := string; HumanPoseResult := list Z; AnimalPoseResult := list Z;
     World := nat |}.

#[local] Existing Instance opaque.

(** The stand-in pose decoder reads a person entry without body keypoints
    as an animal entry. *)
Definition decode (pose : PoseData)
    : list (list Z) * list (list Z) * Z * Z :=
  (filter (fun k => negb (Nat.eqb (length k) 0))
     (map pose_keypoints_2d (people pose)),
   map (fun q => default [] (face_keypoints_2d q))
     (filter (fun q => Nat.eqb (length (pose_keypoints_2d q)) 0) (people pose)),
   canvas_height pose, canvas_width pose).

Definition collaborators : Collaborators :=
  {| encode_pil_to_base64 := fun im => "b64:" +:+ im;
     Image_fromarray := fun a => "pil:" +:+ a;
     torch_save := fun obj => match obj with PyTensor t => t | _ => [] end;
     torch_load := fun data => Some (PyTensor data);
     to_base64_nparray := fun s => "array:" +:+ s;
     bound_check_params := fun u =>
       {| module := module u;
          processor_res := if (processor_res u <? 0)%Z then 512%Z
                           else processor_res u;
          threshold_a := threshold_a u; threshold_b := threshold_b u |};
     decode_json_as_poses := decode;
     draw_poses := fun poses H W => "humans:" +:+ pretty (length poses);
     draw_animalposes := fun animals H W => "animals:" +:+ pretty (length animals)
  |}.

#[local] Existing Instance collaborators.

(** Preprocessors; each counts its runs in the world. *)
Definition canny : Detector := fun img res thr_a thr_b low_vram w =>
  ({| detected_map := PyArray ("canny:" +:+ img); is_image := true;
      callback_args := [] |}, S w).

Definition openpose : Detector := fun img res thr_a thr_b low_vram w =>
  ({| detected_map := PyArray ("skeleton:" +:+ img); is_image := true;
      callback_args := ["pose:" +:+ img] |}, S w).

(** A pose preprocessor that answers without calling the callback. *)
Definition openpose_silent : Detector := fun img res thr_a thr_b low_vram w =>
  ({| detected_map := PyArray ("skeleton:" +:+ img); is_image := true;
      callback_args := [] |}, S w).

(** A pose preprocessor that flags its output as a tensor. *)
Definition openpose_embedding : Detector := fun img res thr_a thr_b low_vram w =>
  ({| detected_map := PyTensor (encode_utf8 img); is_image := false;
      callback_args := ["pose:" +:+ img] |}, S w).

Definition clip : Detector := fun img res thr_a thr_b low_vram w =>
  ({| detected_map := PyTensor (encode_utf8 img); is_image := false;
      callback_args := [] |}, S w).

(** A preprocessor whose flag changes from one run to the next. *)
Definition alternating : Detector := fun img res thr_a thr_b low_vram w =>
  ({| detected_map := if Nat.even w then PyArray ("map:" +:+ img)
                      else PyTensor (encode_utf8 img);
      is_image := Nat.even w; callback_args := [] |}, S w).

Definition cached_cn_preprocessors : gmap string Detector :=
  list_to_map
    [("canny", canny); ("openpose", openpose);
     ("openpose_hand", openpose_silent); ("openpose_face", openpose_embedding);
     ("clip_vision", clip); ("ip-adapter_clip_sd15", clip);
     ("shuffle", alternating)].

Definition global_state : GlobalState :=
  {| reverse_preprocessor_aliases :=
       list_to_map [("canny edge", "canny"); ("pose", "openpose")];
     cn_preprocessor_unloadable := list_to_map [("openpose", fun _ => 0)] |}.

Definition fresh : Host := {| world := 0; calls := [] |}.

Definition person (body : list Z) (face : option (list Z)) : Person :=
  {| pose_keypoints_2d := body; hand_right_keypoints_2d := None;
     hand_left_keypoints_2d := None; face_keypoints_2d := face |}.

Definition human_payload : PoseData :=
  {| people := [person [1; 2; 3]%Z None]; canvas_width := 512;
     canvas_height := 768 |}.

Definition animal_payload : PoseData :=
  {| people := [person [] (Some [4; 5; 6]%Z)]; canvas_width := 512;
     canvas_height := 512 |}.

Definition mixed_payload : PoseData :=
  {| people := [person [1; 2; 3]%Z None; person [] (Some [4; 5; 6]%Z)];
     canvas_width := 512; canvas_height := 512 |}.

Definition sample_tensor : PyObj := PyTensor (encode_utf8 "light w").

End Demo.

(** ** The listing of control types *)
Module ControlTypes.

(** A value of the dict [format_control_type] builds. *)
Inductive Value :=
  | VList (l : list string)
  | VName (s : string).

Definition format_control_type
    (filtered_preprocessor_list filtered_model_list : list string)
    (default_option default_model : string) : gmap string Value :=
  {[ "module_list" := VList filtered_preprocessor_list;
     "model_list" := VList filtered_model_list;
     "default_option" := VName default_option;
     "default_model" := VName default_model ]}.

(** [control_types], over [global_state.select_control_type] and the dict
    [preprocessor_filters], of which only the keys are read. *)
Definition control_types
    (select_control_type :
       string -> list string * list string * string * string)
    (preprocessor_filters : gmap string string)
    : gmap string (gmap string (gmap string Value)) :=
  {[ "control_types" :=
       map_imap
         (fun control_type _ =>
            let '(modules, models, default_option, default_model) :=
              select_control_type control_type in
            Some (format_control_type modules models default_option
                    default_model))
         preprocessor_filters ]}.

End ControlTypes.

(** ** Mounting the API: the [try] at the end of the file *)
Module Mount.

(** What a statement of the [try] block raises: an instance of
    [Exception], which [except Exception] catches, or one of the other
    descendants of [BaseException], which it lets through. *)
Inductive Raised :=
  | OfException (name : string)
  | OfBaseExceptionOnly (name : string).

Inductive Step :=
  | ImportScriptCallbacks
  | OnAppStarted
  | LoggerWarn (msg : string).

(** [except Exception: logger.warn(...)] *)
Definition except_Exception (e : Raised) (done : list Step)
    : option Raised * list Step :=
  match e with
  | OfException _ => (None, done ++ [LoggerWarn "Unable to mount ControlNet API."])
  | OfBaseExceptionOnly _ => (Some e, done)
  end.

(** The [try] statement, given what the import and the registration
    raise, if anything: what leaves the statement and the steps taken. *)
Definition mount (import_raises on_app_started_raises : option Raised)
    : option Raised * list Step :=
  match import_raises with
  | Some e => except_Exception e [ImportScriptCallbacks]
  | None =>
      match on_app_started_raises with
      | Some e => except_Exception e [ImportScriptCallbacks; OnAppStarted]
      | None => (None, [ImportScriptCallbacks; OnAppStarted])
      end
  end.

End Mount.

(** ** More of what the statements are phrased with *)
Section Reading2.

Context {O : Opaque} {C : Collaborators}.

(** The alias table emptied, the unload hooks kept. *)
Definition without_aliases (global_state : GlobalState) : GlobalState :=
  {| reverse_preprocessor_aliases := ∅;
     cn_preprocessor_unloadable := cn_preprocessor_unloadable global_state |}.

(** The world after the unload hook of a module, if it has one. *)
Definition unloaded (global_state : GlobalState) (name : string) (w : World)
    : World :=
  match cn_preprocessor_unloadable global_state !! name with
  | Some unload => unload w
  | None => w
  end.

(** The response [detect] builds from the runs of the preprocessor. *)
Definition detect_response (name : string) (runs : list DetectorRun)
    (flag : bool) : Response :=
  if flag then
    let res : Response :=
      <[ "images" := VStrList (map encode_to_base64 (map detected_map runs)) ]>
        {[ "info" := VStr "Success" ]} in
    if str_contains "openpose" name
    then <[ "poses" := VPoses (omap delivered runs) ]> res
    else res
  else
    <[ "tensor" := VStrList (map encode_tensor_to_base64 (map detected_map runs)) ]>
      {[ "info" := VStr "Success" ]}.

(** The run of the preprocessor on one more image, after those on [pre]. *)
Definition next_run (p : Detector) (u : ControlNetUnit) (low_vram : bool)
    (pre : list string) (i : string) (w : World) : DetectorRun :=
  fst (p (to_base64_nparray i) (processor_res u) (threshold_a u)
         (threshold_b u) low_vram (world_after p u low_vram pre w)).

End Reading2.

(** More requests for the small host. *)
Module Demo2.

#[local] Existing Instance Demo.opaque.
#[local] Existing Instance Demo.collaborators.

(** A payload with nobody in it. *)
Definition blank_payload : PoseData :=
  {| people := []; canvas_width := 64; canvas_height := 48 |}.

Definition run (name : string) (images : list string) : (Exn + Response) * Host :=
  detect Demo.cached_cn_preprocessors Demo.global_state name images
         (-1) (-1)%Z (-1)%Z false Demo.fresh.

End Demo2.

(** ** The image helpers when PIL or the host's encoder raise *)

(** [encode_np_to_base64] and [encode_to_base64] contain no [try]: what
    [Image.fromarray] or [api.encode_pil_to_base64] raise leaves the
    helper as it is.  Here the two collaborators answer with a value or
    with the exception they raise, of some type [E]; where they return
    what the fields [Image_fromarray] and [encode_pil_to_base64] give,
    the helpers below return what the helpers of [Section Api] give. *)
Module Fallible.

Section Helpers.

Context {O : Opaque} {E : Type}.

Variables (fromarray : Ndarray -> E + PILImage)
          (encode_pil : PILImage -> E + string).

Definition encode_np_to_base64 (image : Ndarray) : E + string :=
  match fromarray image with
  | inl e => inl e
  | inr pil => encode_pil pil
  end.

Definition encode_to_base64 (image : PyObj) : E + string :=
  match image with
  | PyStr s => inr s
  | PyImage im => encode_pil im
  | PyArray a => encode_np_to_base64 a
  | _ => inr ""
  end.

End Helpers.

End Fallible.

(** A host whose collaborators can refuse. *)
Module Demo3.

#[local] Existing Instance Demo.opaque.

(** [Image.fromarray] has no mode for an array with four axes. *)
Definition fromarray (a : Ndarray) : string + PILImage :=
  if String.prefix "4d:" a
  then inl "TypeError: Cannot handle this data type"
  else inr ("pil:" +:+ a).

(** The host's encoder cannot write an image of mode F. *)
Definition encode_pil (im : PILImage) : string + string :=
  if String.prefix "pil:F;" im
  then inl "OSError: cannot write mode F as PNG"
  else inr ("b64:" +:+ im).

Definition rgb_array : Ndarray := "RGB;2x2".
Definition four_axes_array : Ndarray := "4d:2x2x2x2".
Definition float_array : Ndarray := "F;2x2".

(** The text whose bytes the sample tensor of the first host holds. *)
Definition sample_text : PyObj := PyStr "light w".

(** A saver that writes a string as its bytes and a tensor as its own. *)
Definition collaborators : Collaborators :=
  {| encode_pil_to_base64 := fun im => "b64:" +:+ im;
     Image_fromarray := fun a => "pil:" +:+ a;
     torch_save := fun obj => match obj with
                              | PyTensor t => t
                              | PyStr s => encode_utf8 s
                              | _ => []
                              end;
     torch_load := fun data => Some (PyTensor data);
     to_base64_nparray := fun s => "array:" +:+ s;
     bound_check_params := fun u => u;
     decode_json_as_poses := Demo.decode;
     draw_poses := fun poses H W => "humans:" +:+ pretty (length poses);
     draw_animalposes := fun animals H W => "animals:" +:+ pretty (length animals)
  |}.

End Demo3.

(** ** Facts about the standard library pieces *)
Module Base64Facts.
Import Base64.
Local Open Scope N_scope.

(** The test vectors of RFC 4648, section 10. *)
Example b64encode_rfc4648 :
  map (fun s => decode_utf8 (b64encode (encode_utf8 s)))
      [""; "f"; "fo"; "foo"; "foob"; "fooba"; "foobar"]
  = [""; "Zg=="; "Zm8="; "Zm9v"; "Zm9vYg=="; "Zm9vYmE="; "Zm9vYmFy"].
Proof. reflexivity. Qed.

Example b64decode_rfc4648 :
  map (fun s => b64decode (encode_utf8 s))
      ["Zg=="; "Zm8="; "Zm9vYmFy"; "Zg="; "Z=9v"]
  = [Some (encode_utf8 "f"); Some (encode_utf8 "fo");
     Some (encode_utf8 "foobar"); None; None].
Proof. reflexivity. Qed.

Lemma to_N_lt (b : byte) : Byte.to_N b < 256.
Proof.
  pose proof (Byte.to_of_N_option_map (Byte.to_N b)) as E.
  rewrite Byte.of_to_N in E. simpl in E.
  destruct (N.leb_spec (Byte.to_N b) 255) as [L | L]; [lia | discriminate].
Qed.

Lemma sixbits_spec (i : N) : i < 64 -> In i sixbits.
Proof.
  intros L. unfold sixbits. apply in_map_iff. exists (N.to_nat i).
  split; [lia | apply in_seq; lia].
Qed.

Lemma index_of_char_of (i : N) : i < 64 -> index_of (char_of i) = Some i.
Proof.
  intros L.
  assert (T : forallb (fun j => match index_of (char_of j) with
                                | Some k => N.eqb j k
                                | None => false
                                end) sixbits = true) by (vm_compute; reflexivity).
  rewrite forallb_forall in T. specialize (T i (sixbits_spec i L)).
  destruct (index_of (char_of i)) as [k |]; [| discriminate].
  apply N.eqb_eq in T. congruence.
Qed.

Lemma char_of_not_pad (i : N) : i < 64 -> Byte.eqb (char_of i) pad = false.
Proof.
  intros L.
  assert (T : forallb (fun j => negb (Byte.eqb (char_of j) pad)) sixbits = true)
    by (vm_compute; reflexivity).
  rewrite forallb_forall in T. specialize (T i (sixbits_spec i L)).
  now apply negb_true_iff in T.
Qed.

Lemma char_of_ascii (i : N) : i < 64 -> Byte.to_N (char_of i) < 128.
Proof.
  intros L.
  assert (T : forallb (fun j => N.ltb (Byte.to_N (char_of j)) 128) sixbits = true)
    by (vm_compute; reflexivity).
  rewrite forallb_forall in T. specialize (T i (sixbits_spec i L)).
  now apply N.ltb_lt in T.
Qed.

Ltac Zify.zify_post_hook ::= Z.to_euclidean_division_equations.

Lemma group24_lt (a b c : byte) : group24 a b c < 16777216.
Proof.
  pose proof (to_N_lt a). pose proof (to_N_lt b). pose proof (to_N_lt c).
  unfold group24. lia.
Qed.

Lemma of_N_small (x : N) : x < 256 -> exists b, Byte.of_N x = Some b.
Proof.
  intros L. pose proof (Byte.to_of_N_option_map x) as E.
  destruct (N.leb_spec x 255) as [_ | G]; [| lia].
  destruct (Byte.of_N x) as [b |]; [now exists b | discriminate].
Qed.

Lemma octets_group24 (a b c : byte) :
  octets (group24 a b c) 3 = Some [a; b; c].
Proof.
  pose proof (to_N_lt a). pose proof (to_N_lt b). pose proof (to_N_lt c).
  unfold octets.
  replace (group24 a b c / 65536) with (Byte.to_N a) by (unfold group24; lia).
  replace (group24 a b c / 256 mod 256) with (Byte.to_N b)
    by (unfold group24; lia).
  replace (group24 a b c mod 256) with (Byte.to_N c) by (unfold group24; lia).
  now rewrite !Byte.of_to_N.
Qed.

(** A full quantum decodes to the three bytes it was made from. *)
Lemma decode_quad_sextets (a b c : byte) :
  let n := group24 a b c in
  decode_quad (char_of (n / 262144)) (char_of (n / 4096 mod 64))
              (char_of (n / 64 mod 64)) (char_of (n mod 64))
  = Some [a; b; c].
Proof.
  intros n. pose proof (group24_lt a b c) as L. fold n in L.
  unfold decode_quad.
  rewrite !index_of_char_of by lia.
  replace (((n / 262144 * 64 + n / 4096 mod 64) * 64 + n / 64 mod 64) * 64
           + n mod 64) with n by lia.
  apply octets_group24.
Qed.

Lemma decode_last_one (a : byte) :
  let n := group24 a "000"%byte "000"%byte in
  decode_last (char_of (n / 262144)) (char_of (n / 4096 mod 64)) pad pad
  = Some [a].
Proof.
  intros n. pose proof (to_N_lt a) as La.
  assert (En : n = Byte.to_N a * 65536) by (unfold n, group24; simpl; lia).
  unfold decode_last. simpl (Byte.eqb pad pad).
  rewrite !index_of_char_of by lia.
  set (m := (n / 262144 * 64 + n / 4096 mod 64) * 4096).
  unfold octets.
  replace (m / 65536) with (Byte.to_N a) by (unfold m; lia).
  rewrite Byte.of_to_N.
  destruct (of_N_small (m / 256 mod 256)) as [x ->]; [lia |].
  destruct (of_N_small (m mod 256)) as [y ->]; [lia |].
  reflexivity.
Qed.

Lemma decode_last_two (a b : byte) :
  let n := group24 a b "000"%byte in
  decode_last (char_of (n / 262144)) (char_of (n / 4096 mod 64))
              (char_of (n / 64 mod 64)) pad
  = Some [a; b].
Proof.
  intros n. pose proof (to_N_lt a) as La. pose proof (to_N_lt b) as Lb.
  assert (En : n = Byte.to_N a * 65536 + Byte.to_N b * 256)
    by (unfold n, group24; simpl; lia).
  unfold decode_last. simpl (Byte.eqb pad pad).
  rewrite char_of_not_pad by lia.
  rewrite !index_of_char_of by lia.
  set (m := ((n / 262144 * 64 + n / 4096 mod 64) * 64 + n / 64 mod 64) * 64).
  unfold octets.
  replace (m / 65536) with (Byte.to_N a) by (unfold m; lia).
  replace (m / 256 mod 256) with (Byte.to_N b) by (unfold m; lia).
  rewrite !Byte.of_to_N.
  destruct (of_N_small (m mod 256)) as [y ->]; [lia |].
  reflexivity.
Qed.

Lemma decode_last_full (a b c : byte) :
  let n := group24 a b c in
  decode_last (char_of (n / 262144)) (char_of (n / 4096 mod 64))
              (char_of (n / 64 mod 64)) (char_of (n mod 64))
  = Some [a; b; c].
Proof.
  intros n. unfold decode_last.
  rewrite char_of_not_pad by lia.
  apply decode_quad_sextets.
Qed.

(** Lists taken three elements at a time. *)
Lemma list_ind3 {A : Type} (P : list A -> Prop) :
  P [] -> (forall a, P [a]) -> (forall a b, P [a; b]) ->
  (forall a b c rest, P rest -> P (a :: b :: c :: rest)) ->
  forall l, P l.
Proof.
  intros P0 P1 P2 P3.
  fix IH 1.
  intros [| a [| b [| c rest]]];
    [exact P0 | apply P1 | apply P2 | apply P3, IH].
Qed.

Lemma b64encode_nil_inv (bs : list byte) : b64encode bs = [] -> bs = [].
Proof. destruct bs as [| a [| b [| c rest]]]; simpl; congruence. Qed.

(** Decoding undoes encoding. *)
Lemma b64decode_b64encode (bs : list byte) :
  b64decode (b64encode bs) = Some bs.
Proof.
  induction bs as [| a | a b | a b c rest IH] using list_ind3.
  - reflexivity.
  - cbn [b64encode b64decode]. apply decode_last_one.
  - cbn [b64encode b64decode]. apply decode_last_two.
  - cbn [b64encode sextets app]. cbn [b64decode].
    destruct (b64encode rest) as [| x xs] eqn:E.
    + apply b64encode_nil_inv in E. subst rest. apply decode_last_full.
    + rewrite decode_quad_sextets. fold b64decode.
      change (b64decode (x :: xs) = Some rest) in IH.
      rewrite IH. reflexivity.
Qed.

(** The encoder writes ASCII only, so the [decode("utf-8")] that follows
    it never meets an ill-formed sequence. *)
Lemma b64encode_ascii (bs : list byte) :
  Forall (fun c => Byte.to_N c < 128) (b64encode bs).
Proof.
  induction bs as [| a | a b | a b c rest IH] using list_ind3.
  - constructor.
  - cbn [b64encode]. pose proof (group24_lt a "000"%byte "000"%byte).
    repeat constructor; try (apply char_of_ascii; lia); vm_compute; reflexivity.
  - cbn [b64encode]. pose proof (group24_lt a b "000"%byte).
    repeat constructor; try (apply char_of_ascii; lia); vm_compute; reflexivity.
  - cbn [b64encode sextets app]. pose proof (group24_lt a b c).
    repeat (constructor; [apply char_of_ascii; lia |]). exact IH.
Qed.

End Base64Facts.

(** ** Facts about the loops *)
Section LoopFacts.

Context {O : Opaque} {C : Collaborators}.

Lemma value_fold_accept (args : list Json) (a : JsonAcceptor) :
  value (fold_left accept args a)
  = match last args with Some v => Some v | None => value a end.
Proof.
  revert a. induction args as [| x args IH]; intros a; [reflexivity |].
  cbn [fold_left]. rewrite IH. destruct args as [| y args]; [reflexivity |].
  change (last (x :: y :: args)) with (last (y :: args)).
  destruct (last (y :: args)) eqn:E; [reflexivity |].
  apply last_None in E. discriminate.
Qed.

Lemma delivered_None (r : DetectorRun) :
  delivered r = None <-> callback_args r = [].
Proof. unfold delivered. apply last_None. Qed.

Lemma last_flag_cons (r : DetectorRun) (rs : list DetectorRun)
    (unbound : option bool) :
  match last (r :: rs) with
  | Some r0 => Some (is_image r0)
  | None => unbound
  end
  = match last rs with
    | Some r0 => Some (is_image r0)
    | None => Some (is_image r)
    end.
Proof.
  destruct rs as [| r' rs]; [reflexivity |].
  change (last (r :: r' :: rs)) with (last (r' :: rs)).
  destruct (last (r' :: rs)) eqn:E; [reflexivity |].
  apply last_None in E. discriminate.
Qed.

(** One turn of the loop of [detect], spelled out on the host. *)
Lemma detect_body_eq (p : Detector) (name : string) (u : ControlNetUnit)
    (low_vram : bool) (vars : DetectVars) (i : string) (h : Host) :
  detect_body p name u low_vram vars i h
  = let (r, w') := p (to_base64_nparray i) (processor_res u) (threshold_a u)
                     (threshold_b u) low_vram (world h) in
    let h' := {| world := w';
                 calls := calls h ++ [ToBase64Nparray i;
                                      processor_call name u low_vram i] |} in
    if str_contains "openpose" name then
      match delivered r with
      | None => (inl AssertionError, h')
      | Some v => (inr {| results := results vars ++ [detected_map r];
                          poses := poses vars ++ [v];
                          is_image_var := Some (is_image r) |}, h')
      end
    else (inr {| results := results vars ++ [detected_map r];
                 poses := poses vars;
                 is_image_var := Some (is_image r) |}, h').
Proof.
  unfold detect_body, bind, call, act, ret, raise, processor_call. cbn.
  destruct (p _ _ _ _ _ _) as [r w']. cbn.
  rewrite <- app_assoc. cbn [app].
  destruct (str_contains "openpose" name); [| reflexivity].
  rewrite value_fold_accept. unfold delivered.
  destruct (last (callback_args r)); reflexivity.
Qed.

(** The loop runs to its end when no assertion stops it. *)
Lemma detect_loop_ok (p : Detector) (name : string) (u : ControlNetUnit)
    (low_vram : bool) (images : list string) :
  forall (vars : DetectVars) (h : Host),
    let runs := detector_runs p u low_vram images (world h) in
    (str_contains "openpose" name = true ->
     Forall (fun r => callback_args r <> []) runs) ->
    for_each (detect_body p name u low_vram) images vars h
    = (inr {| results := results vars ++ map detected_map runs;
              poses := poses vars ++
                       (if str_contains "openpose" name
                        then omap delivered runs else []);
              is_image_var := match last runs with
                              | Some r => Some (is_image r)
                              | None => is_image_var vars
                              end |},
       {| world := world_after p u low_vram images (world h);
          calls := calls h ++ loop_calls name u low_vram images |}).
Proof.
  induction images as [| i images IH]; intros vars h runs Hd.
  - destruct vars, h. cbn. unfold ret.
    destruct (str_contains "openpose" name); rewrite !app_nil_r; reflexivity.
  - subst runs. cbn [for_each detector_runs world_after] in *.
    unfold bind at 1. rewrite detect_body_eq.
    destruct (p _ _ _ _ _ _) as [r w'] eqn:Ep. cbn zeta.
    destruct (str_contains "openpose" name) eqn:Eo.
    + specialize (Hd eq_refl). apply Forall_cons in Hd as [Hr Hrest].
      destruct (delivered r) as [v |] eqn:Ev;
        [| apply delivered_None in Ev; contradiction].
      rewrite IH by (intros _; exact Hrest). cbn [world calls results poses is_image_var].
      cbn [map omap list_omap]. rewrite Ev, last_flag_cons.
      unfold loop_calls. cbn [flat_map app].
      rewrite <- !app_assoc. reflexivity.
    + rewrite IH by (intros Ho; discriminate).
      cbn [world calls results poses is_image_var map].
      rewrite last_flag_cons. unfold loop_calls. cbn [flat_map app].
      rewrite <- !app_assoc. reflexivity.
Qed.

(** The loop stops with an [AssertionError] at the first run of a pose
    module that leaves the sink empty. *)
Lemma detect_loop_fail (p : Detector) (name : string) (u : ControlNetUnit)
    (low_vram : bool) (images : list string) :
  forall (vars : DetectVars) (h : Host),
    str_contains "openpose" name = true ->
    Exists (fun r => callback_args r = [])
           (detector_runs p u low_vram images (world h)) ->
    exists h', for_each (detect_body p name u low_vram) images vars h
               = (inl AssertionError, h').
Proof.
  induction images as [| i images IH]; intros vars h Ho He.
  - cbn in He. inversion He.
  - cbn [for_each detector_runs] in *.
    unfold bind at 1. rewrite detect_body_eq.
    destruct (p _ _ _ _ _ _) as [r w'] eqn:Ep. cbn zeta. rewrite Ho.
    destruct (delivered r) as [v |] eqn:Ev; [| eauto].
    apply Exists_cons in He as [He | He].
    + apply delivered_None in He. congruence.
    + eapply IH; [exact Ho | exact He].
Qed.

(** Whatever the preprocessor does, the loop either completes or stops
    with an [AssertionError]. *)
Lemma detect_loop_outcome (p : Detector) (name : string) (u : ControlNetUnit)
    (low_vram : bool) (images : list string) (vars : DetectVars) (h : Host) :
  (exists vars' h', for_each (detect_body p name u low_vram) images vars h
                    = (inr vars', h'))
  \/ (exists h', for_each (detect_body p name u low_vram) images vars h
                 = (inl AssertionError, h')).
Proof.
  revert vars h. induction images as [| i images IH]; intros vars h.
  - left. exists vars, h. reflexivity.
  - cbn [for_each]. unfold bind. rewrite detect_body_eq.
    destruct (p _ _ _ _ _ _) as [r w']. cbn zeta.
    destruct (str_contains "openpose" name).
    + destruct (delivered r) as [v |]; [apply IH | right; eauto].
    + apply IH.
Qed.

End LoopFacts.

(** ** Facts about [detect] *)
Section DetectFacts.

Context {O : Opaque} {C : Collaborators}.

Variables (cached_cn_preprocessors : gmap string Detector)
          (global_state : GlobalState).

Lemma detector_runs_length (p : Detector) (u : ControlNetUnit)
    (low_vram : bool) (images : list string) :
  forall w, length (detector_runs p u low_vram images w) = length images.
Proof.
  induction images as [| i images IH]; intros w; [reflexivity |].
  cbn [detector_runs]. destruct (p _ _ _ _ _ _) as [r w']. cbn. now rewrite IH.
Qed.

Lemma omap_delivered (runs : list DetectorRun) :
  Forall (fun r => callback_args r <> []) runs ->
  map Some (omap delivered runs) = map delivered runs.
Proof.
  induction 1 as [| r runs Hr _ IH]; [reflexivity |].
  cbn [map omap list_omap].
  destruct (delivered r) as [v |] eqn:Ev;
    [| apply delivered_None in Ev; contradiction].
  cbn [map]. now rewrite IH.
Qed.

Lemma loop_calls_processor (name : string) (u : ControlNetUnit)
    (low_vram : bool) (images : list string) :
  List.filter is_processor_call (loop_calls name u low_vram images)
  = map (processor_call name u low_vram) images.
Proof.
  induction images as [| i images IH]; [reflexivity |].
  unfold loop_calls in *. cbn [flat_map app List.filter is_processor_call
                               processor_call map].
  now rewrite IH.
Qed.

(** The three rejections, each before anything else has happened. *)
Lemma detect_not_available m images res thr_a thr_b low_vram h :
  cached_cn_preprocessors !! canonical global_state m = None ->
  detect cached_cn_preprocessors global_state m images res thr_a thr_b
         low_vram h
  = (inl (HTTPException 422 "Module not available"), h).
Proof.
  intros Hn. unfold detect. fold (canonical global_state m).
  now rewrite bool_decide_eq_true_2.
Qed.

Lemma detect_not_supported m images res thr_a thr_b low_vram h :
  is_Some (cached_cn_preprocessors !! canonical global_state m) ->
  canonical global_state m ∈ excluded_modules ->
  detect cached_cn_preprocessors global_state m images res thr_a thr_b
         low_vram h
  = (inl (HTTPException 422 "Module not supported"), h).
Proof.
  intros [p Hp] He. unfold detect. fold (canonical global_state m).
  rewrite bool_decide_eq_false_2 by congruence.
  now rewrite bool_decide_eq_true_2.
Qed.

Lemma detect_no_image m res thr_a thr_b low_vram h :
  is_Some (cached_cn_preprocessors !! canonical global_state m) ->
  canonical global_state m ∉ excluded_modules ->
  detect cached_cn_preprocessors global_state m [] res thr_a thr_b
         low_vram h
  = (inl (HTTPException 422 "No image selected"), h).
Proof.
  intros [p Hp] He. unfold detect. fold (canonical global_state m).
  rewrite bool_decide_eq_false_2 by congruence.
  now rewrite bool_decide_eq_false_2.
Qed.

(** Past validation, [detect] is its loop followed by the unload hook and
    the encoding of the results. *)
Lemma detect_validated m images res thr_a thr_b low_vram h p :
  let name := canonical global_state m in
  cached_cn_preprocessors !! name = Some p ->
  name ∉ excluded_modules ->
  images <> [] ->
  detect cached_cn_preprocessors global_state m images res thr_a thr_b
         low_vram h
  = match for_each
            (detect_body p name (checked_unit name res thr_a thr_b) low_vram)
            images {| results := []; poses := []; is_image_var := None |}
            {| world := world h;
               calls := calls h ++ preamble_calls name images res thr_a thr_b |}
    with
    | (inl e, h') => (inl e, h')
    | (inr vars, h') =>
        let h'' :=
          match cn_preprocessor_unloadable global_state !! name with
          | Some unload => {| world := unload (world h');
                              calls := calls h' ++ [Unload name] |}
          | None => h'
          end in
        match is_image_var vars with
        | None => (inl (UnboundLocalError "is_image"), h'')
        | Some true =>
            (inr (let res0 : Response :=
                    <[ "images" := VStrList (map encode_to_base64 (results vars)) ]>
                      {[ "info" := VStr "Success" ]} in
                  match poses vars with
                  | [] => res0
                  | _ :: _ => <[ "poses" := VPoses (poses vars) ]> res0
                  end), h'')
        | Some false =>
            (inr (<[ "tensor" :=
                     VStrList (map encode_tensor_to_base64 (results vars)) ]>
                    {[ "info" := VStr "Success" ]}), h'')
        end
    end.
Proof.
  intros name Hp He Hi. unfold detect. fold (canonical global_state m).
  fold name. rewrite bool_decide_eq_false_2 by congruence.
  rewrite bool_decide_eq_false_2 by exact He.
  destruct images as [| i images]; [contradiction |].
  cbn [length Nat.eqb]. rewrite Hp.
  unfold bind at 1 2 3. unfold call at 1 2 3. cbn [world calls].
  rewrite <- !app_assoc. cbn [app].
  fold (checked_unit name res thr_a thr_b).
  unfold bind at 1. unfold preamble_calls. cbn [length].
  destruct (for_each _ _ _ _) as [[e | vars] h']; [reflexivity |].
  unfold bind at 1.
  destruct (cn_preprocessor_unloadable global_state !! name) as [unload |].
  - unfold bind, call, act, ret, raise. cbn.
    destruct (is_image_var vars) as [[|] |]; try reflexivity.
    destruct (poses vars); reflexivity.
  - unfold ret, raise. cbn.
    destruct (is_image_var vars) as [[|] |]; try reflexivity.
    destruct (poses vars); reflexivity.
Qed.

Lemma last_of_runs (p : Detector) (u : ControlNetUnit) (low_vram : bool)
    (images : list string) (w : World) :
  images <> [] -> is_Some (last (detector_runs p u low_vram images w)).
Proof.
  intros Hi. destruct (last _) eqn:E; [eauto |].
  apply last_None in E. apply (f_equal length) in E.
  rewrite detector_runs_length in E. destruct images; [contradiction | discriminate].
Qed.

(** A validated request on which no assertion fails: the response and the
    host it leaves. *)
Lemma detect_ok m images res thr_a thr_b low_vram h p :
  let name := canonical global_state m in
  let u := checked_unit name res thr_a thr_b in
  let runs := detector_runs p u low_vram images (world h) in
  cached_cn_preprocessors !! name = Some p ->
  name ∉ excluded_modules ->
  images <> [] ->
  (str_contains "openpose" name = true ->
   Forall (fun r => callback_args r <> []) runs) ->
  exists resp h' r_last,
    detect cached_cn_preprocessors global_state m images res thr_a thr_b
           low_vram h = (inr resp, h')
    /\ last runs = Some r_last
    /\ calls h' = calls h ++ preamble_calls name images res thr_a thr_b
                  ++ loop_calls name u low_vram images
                  ++ unload_calls global_state name
    /\ resp !! "info" = Some (VStr "Success")
    /\ (if is_image r_last then
          resp !! "images"
          = Some (VStrList (map encode_to_base64 (map detected_map runs)))
          /\ resp !! "tensor" = None
          /\ (if str_contains "openpose" name then
                resp !! "poses" = Some (VPoses (omap delivered runs))
              else resp !! "poses" = None)
        else
          resp !! "tensor"
          = Some (VStrList (map encode_tensor_to_base64 (map detected_map runs)))
          /\ resp !! "images" = None
          /\ resp !! "poses" = None).
Proof.
  intros name u runs Hp He Hi Hd.
  destruct (last_of_runs p u low_vram images (world h) Hi) as [r_last Hl].
  fold runs in Hl.
  rewrite (detect_validated m images res thr_a thr_b low_vram h p Hp He Hi).
  fold name. fold u.
  rewrite detect_loop_ok by exact Hd. cbn [world calls results poses is_image_var app].
  fold runs. rewrite Hl. cbn zeta.
  set (h1 := match cn_preprocessor_unloadable global_state !! name with
             | Some unload => _ | None => _ end).
  assert (Hc : calls h1 = calls h ++ preamble_calls name images res thr_a thr_b
                          ++ loop_calls name u low_vram images
                          ++ unload_calls global_state name).
  { unfold h1, unload_calls.
    destruct (cn_preprocessor_unloadable global_state !! name); cbn [calls];
      rewrite <- ?app_assoc, ?app_nil_r; reflexivity. }
  destruct (is_image r_last) eqn:Ef.
  - eexists _, h1, r_last. split; [reflexivity |].
    split; [reflexivity |]. split; [exact Hc |]. rewrite Ef.
    destruct (str_contains "openpose" name) eqn:Eo.
    + specialize (Hd eq_refl).
      destruct (omap delivered runs) as [| v vs] eqn:Eom.
      * exfalso. apply omap_delivered in Hd. rewrite Eom in Hd.
        destruct runs; [discriminate Hl | discriminate Hd].
      * repeat split; simplify_map_eq; reflexivity.
    + repeat split; simplify_map_eq; reflexivity.
  - eexists _, h1, r_last. split; [reflexivity |].
    split; [reflexivity |]. split; [exact Hc |]. rewrite Ef.
    repeat split; simplify_map_eq; reflexivity.
Qed.

(** A validated request to a pose module with a run that leaves the sink
    empty. *)
Lemma detect_assertion m images res thr_a thr_b low_vram h p :
  let name := canonical global_state m in
  let u := checked_unit name res thr_a thr_b in
  cached_cn_preprocessors !! name = Some p ->
  name ∉ excluded_modules ->
  images <> [] ->
  str_contains "openpose" name = true ->
  Exists (fun r => callback_args r = [])
         (detector_runs p u low_vram images (world h)) ->
  exists h', detect cached_cn_preprocessors global_state m images res thr_a
                    thr_b low_vram h = (inl AssertionError, h').
Proof.
  intros name u Hp He Hi Ho Hx.
  rewrite (detect_validated m images res thr_a thr_b low_vram h p Hp He Hi).
  fold name. fold u.
  edestruct (detect_loop_fail p name u low_vram images) as [h' ->];
    [exact Ho | exact Hx | eauto].
Qed.

(** An [HTTPException] of [detect] is one of the three rejections. *)
Lemma detect_http_inv m images res thr_a thr_b low_vram h code detail h' :
  detect cached_cn_preprocessors global_state m images res thr_a thr_b
         low_vram h = (inl (HTTPException code detail), h') ->
  code = 422%Z /\ h' = h
  /\ (cached_cn_preprocessors !! canonical global_state m = None
      \/ canonical global_state m ∈ excluded_modules
      \/ images = []).
Proof.
  intros E.
  destruct (cached_cn_preprocessors !! canonical global_state m) as [p |] eqn:Hp.
  2:{ rewrite detect_not_available in E by exact Hp.
      inversion E; subst. auto. }
  destruct (decide (canonical global_state m ∈ excluded_modules)) as [He | He].
  { rewrite detect_not_supported in E by (rewrite ?Hp; eauto).
    inversion E; subst. auto. }
  destruct images as [| i images].
  { rewrite detect_no_image in E by (rewrite ?Hp; eauto).
    inversion E; subst. auto. }
  exfalso.
  rewrite (detect_validated m (i :: images) res thr_a thr_b low_vram h p Hp He)
    in E by discriminate.
  match type of E with
  | context [for_each ?b ?xs ?v ?h0] =>
      destruct (detect_loop_outcome p (canonical global_state m)
                  (checked_unit (canonical global_state m) res thr_a thr_b)
                  low_vram (i :: images) v h0) as [(vars & h1 & L) | (h1 & L)];
        rewrite L in E
  end.
  - cbn zeta in E. destruct (is_image_var vars) as [[|] |]; discriminate E.
  - discriminate E.
Qed.

End DetectFacts.

(** ** Facts about [render_openpose_json] *)
Section RenderFacts.

Context {O : Opaque} {C : Collaborators}.

(** One element of the comprehension, spelled out on the host. *)
Lemma render_body_eq (images : list string) (pose : PoseData) (h : Host) :
  render_body images pose h
  = (if mixed pose then inl AssertionError
     else inr (images ++ [encode_to_base64 (PyArray (rendered pose))]),
     {| world := world h; calls := calls h ++ payload_calls pose |}).
Proof.
  unfold render_body, payload_calls, mixed, rendered, draw_call.
  destruct (decode_json_as_poses pose) as [[[ps an] H] W].
  unfold bind at 1. unfold call at 1. cbn [world calls].
  destruct ps as [| x ps]; [| destruct an as [| y an]];
    unfold draw, bind, call, assert, ret, raise; cbn;
    rewrite <- ?app_assoc; reflexivity.
Qed.

Lemma render_loop_ok (pose_data : list PoseData) :
  forall (images : list string) (h : Host),
    Forall (fun pose => mixed pose = false) pose_data ->
    for_each render_body pose_data images h
    = (inr (images ++ map (fun pose => encode_to_base64 (PyArray (rendered pose)))
                          pose_data),
       {| world := world h;
          calls := calls h ++ flat_map payload_calls pose_data |}).
Proof.
  induction pose_data as [| pose pose_data IH]; intros images h Hv.
  - destruct h. cbn. unfold ret. now rewrite !app_nil_r.
  - apply Forall_cons in Hv as [Hp Hrest].
    cbn [for_each]. unfold bind. rewrite render_body_eq, Hp.
    rewrite IH by exact Hrest. cbn [world calls map flat_map].
    rewrite <- !app_assoc. reflexivity.
Qed.

Lemma render_loop_fail (pose_data : list PoseData) :
  forall (images : list string) (h : Host),
    Exists (fun pose => mixed pose = true) pose_data ->
    exists h', for_each render_body pose_data images h
               = (inl AssertionError, h').
Proof.
  induction pose_data as [| pose pose_data IH]; intros images h Hx.
  - inversion Hx.
  - cbn [for_each]. unfold bind. rewrite render_body_eq.
    destruct (mixed pose) eqn:Em; [eauto |].
    apply Exists_cons in Hx as [Hx | Hx]; [congruence |].
    apply IH, Hx.
Qed.

End RenderFacts.

(** ** The properties of the handlers *)
Section Properties.

Context {O : Opaque} {C : Collaborators}.

Variables (cached_cn_preprocessors : gmap string Detector)
          (global_state : GlobalState).

(** C1. [detect] raises an HTTP exception with status 422 exactly when the
    module name, after alias resolution, is missing from the cached
    preprocessors, or is one of the three excluded modules, or the list of
    input images is empty; it raises no HTTP exception with another
    status.  So an empty list and an excluded module are rejected whatever
    the other fields are. *)
Theorem detect_422_iff m images res thr_a thr_b low_vram h :
  ((exists detail h',
      detect cached_cn_preprocessors global_state m images res thr_a thr_b
             low_vram h = (inl (HTTPException 422 detail), h'))
   <-> (cached_cn_preprocessors !! canonical global_state m = None
        \/ canonical global_state m ∈ excluded_modules
        \/ images = []))
  /\ (forall code detail h',
        detect cached_cn_preprocessors global_state m images res thr_a thr_b
               low_vram h = (inl (HTTPException code detail), h') ->
        code = 422%Z).
Proof.
  split; [split |].
  - intros (detail & h' & E).
    apply detect_http_inv in E. tauto.
  - intros Hc.
    destruct (cached_cn_preprocessors !! canonical global_state m) as [p |] eqn:Hp.
    2:{ eexists _, h. now apply detect_not_available. }
    destruct (decide (canonical global_state m ∈ excluded_modules)) as [He | He].
    { eexists _, h. apply detect_not_supported; [rewrite Hp; eauto | exact He]. }
    destruct Hc as [Hc | [Hc | Hc]]; [discriminate | contradiction |].
    subst images. eexists _, h.
    apply detect_no_image; [rewrite Hp; eauto | exact He].
  - intros code detail h' E. apply detect_http_inv in E. tauto.
Qed.

(** C8. When [detect] rejects a request with status 422, the host is as it
    was before the request: no call to a collaborator has been recorded
    (no parameter object, no decoded image, no preprocessor run, no unload
    hook) and the world is unchanged. *)
Theorem detect_422_leaves_host_untouched
    m images res thr_a thr_b low_vram h detail h' :
  detect cached_cn_preprocessors global_state m images res thr_a thr_b
         low_vram h = (inl (HTTPException 422 detail), h') ->
  h' = h /\ calls h' = calls h /\ world h' = world h.
Proof.
  intros E. apply detect_http_inv in E as (_ & -> & _). auto.
Qed.

(** C2, as amended.  On a request that passes validation with N input
    images and on which, when the module name contains "openpose", every
    run of the preprocessor hands pose data to the callback, [detect] calls
    the preprocessor once per input image, in input order, and returns a
    response with "info" = "Success" and N encoded outputs in input order:
    under "images" (with the collected poses under "poses" for a pose
    module) when the last run flagged its output as an image, under
    "tensor" otherwise. *)
Theorem detect_success m images res thr_a thr_b low_vram h p :
  let name := canonical global_state m in
  let u := checked_unit name res thr_a thr_b in
  let runs := detector_runs p u low_vram images (world h) in
  cached_cn_preprocessors !! name = Some p ->
  name ∉ excluded_modules ->
  images <> [] ->
  (str_contains "openpose" name = true ->
   Forall (fun r => callback_args r <> []) runs) ->
  exists resp h' new r_last outs,
    detect cached_cn_preprocessors global_state m images res thr_a thr_b
           low_vram h = (inr resp, h')
    /\ calls h' = calls h ++ new
    /\ List.filter is_processor_call new
       = map (processor_call name u low_vram) images
    /\ resp !! "info" = Some (VStr "Success")
    /\ last runs = Some r_last
    /\ length outs = length images
    /\ (if is_image r_last then
          outs = map encode_to_base64 (map detected_map runs)
          /\ resp !! "images" = Some (VStrList outs)
          /\ resp !! "tensor" = None
          /\ resp !! "poses"
             = (if str_contains "openpose" name
                then Some (VPoses (omap delivered runs)) else None)
        else
          outs = map encode_tensor_to_base64 (map detected_map runs)
          /\ resp !! "tensor" = Some (VStrList outs)
          /\ resp !! "images" = None
          /\ resp !! "poses" = None).
Proof.
  intros name u runs Hp He Hi Hd.
  destruct (detect_ok cached_cn_preprocessors global_state m images res thr_a
              thr_b low_vram h p Hp He Hi Hd)
    as (resp & h' & r_last & E & Hl & Hc & Hinfo & Hout).
  fold name u runs in Hl, Hc, Hout.
  exists resp, h', (preamble_calls name images res thr_a thr_b
                    ++ loop_calls name u low_vram images
                    ++ unload_calls global_state name), r_last.
  exists (if is_image r_last
          then map encode_to_base64 (map detected_map runs)
          else map encode_tensor_to_base64 (map detected_map runs)).
  split; [exact E |]. split; [exact Hc |]. split.
  { rewrite !List.filter_app, loop_calls_processor.
    unfold unload_calls.
    destruct (cn_preprocessor_unloadable global_state !! name);
      cbn; now rewrite app_nil_r. }
  split; [exact Hinfo |]. split; [exact Hl |]. split.
  { destruct (is_image r_last); rewrite !length_map;
      apply detector_runs_length. }
  destruct (is_image r_last).
  - destruct Hout as (Hi' & Ht & Hposes).
    repeat split; try assumption.
    destruct (str_contains "openpose" name); exact Hposes.
  - destruct Hout as (Ht & Hi' & Hposes). repeat split; assumption.
Qed.

(** C10. On a request that [detect] answers, the flag of the last run alone
    chooses the encoding: when it says image, every output, also those of
    earlier runs, is encoded with [encode_to_base64] under "images" and
    there is no "tensor" field; when it says tensor, every output is
    encoded with [encode_tensor_to_base64] under "tensor" and there is no
    "images" field.  The flags of the earlier runs play no part. *)
Theorem detect_encoding_follows_last_flag m images res thr_a thr_b low_vram h p :
  let name := canonical global_state m in
  let u := checked_unit name res thr_a thr_b in
  let runs := detector_runs p u low_vram images (world h) in
  cached_cn_preprocessors !! name = Some p ->
  name ∉ excluded_modules ->
  images <> [] ->
  (str_contains "openpose" name = true ->
   Forall (fun r => callback_args r <> []) runs) ->
  exists resp h' r_last,
    detect cached_cn_preprocessors global_state m images res thr_a thr_b
           low_vram h = (inr resp, h')
    /\ last runs = Some r_last
    /\ (is_image r_last = true ->
        resp !! "images"
        = Some (VStrList (map encode_to_base64 (map detected_map runs)))
        /\ resp !! "tensor" = None)
    /\ (is_image r_last = false ->
        resp !! "tensor"
        = Some (VStrList (map encode_tensor_to_base64 (map detected_map runs)))
        /\ resp !! "images" = None).
Proof.
  intros name u runs Hp He Hi Hd.
  destruct (detect_ok cached_cn_preprocessors global_state m images res thr_a
              thr_b low_vram h p Hp He Hi Hd)
    as (resp & h' & r_last & E & Hl & _ & _ & Hout).
  fold name u runs in Hl, Hout.
  exists resp, h', r_last. split; [exact E |]. split; [exact Hl |].
  split; intros Ef; rewrite Ef in Hout; tauto.
Qed.

(** C9, as amended.  On a request that passes validation:
    when the module name contains "openpose" and some run of the
    preprocessor leaves the callback sink empty, [detect] raises an
    [AssertionError]; when every run hands over pose data and the last run
    flags its output as an image, the response's "poses" list has exactly
    one entry per input image, in input order, the entry of an image being
    what its run handed over last; when the last run flags a tensor the
    response has no "poses" field.  When the name does not contain
    "openpose" the response has no "poses" field. *)
Theorem detect_poses m images res thr_a thr_b low_vram h p :
  let name := canonical global_state m in
  let u := checked_unit name res thr_a thr_b in
  let runs := detector_runs p u low_vram images (world h) in
  cached_cn_preprocessors !! name = Some p ->
  name ∉ excluded_modules ->
  images <> [] ->
  (str_contains "openpose" name = true ->
   (Exists (fun r => callback_args r = []) runs ->
    exists h',
      detect cached_cn_preprocessors global_state m images res thr_a thr_b
             low_vram h = (inl AssertionError, h'))
   /\ (Forall (fun r => callback_args r <> []) runs ->
       exists resp h' r_last,
         detect cached_cn_preprocessors global_state m images res thr_a thr_b
                low_vram h = (inr resp, h')
         /\ last runs = Some r_last
         /\ (if is_image r_last then
               exists ps, resp !! "poses" = Some (VPoses ps)
                          /\ map Some ps = map delivered runs
                          /\ length ps = length images
             else resp !! "poses" = None)))
  /\ (str_contains "openpose" name = false ->
      exists resp h',
        detect cached_cn_preprocessors global_state m images res thr_a thr_b
               low_vram h = (inr resp, h')
        /\ resp !! "poses" = None).
Proof.
  intros name u runs Hp He Hi. split.
  - intros Ho. split.
    + intros Hx.
      exact (detect_assertion cached_cn_preprocessors global_state m images
               res thr_a thr_b low_vram h p Hp He Hi Ho Hx).
    + intros Hd.
      destruct (detect_ok cached_cn_preprocessors global_state m images res
                  thr_a thr_b low_vram h p Hp He Hi (fun _ => Hd))
        as (resp & h' & r_last & E & Hl & _ & _ & Hout).
      fold name u runs in Hl, Hout.
      exists resp, h', r_last. split; [exact E |]. split; [exact Hl |].
      destruct (is_image r_last); [| tauto].
      destruct Hout as (_ & _ & Hposes). rewrite Ho in Hposes.
      exists (omap delivered runs). split; [exact Hposes |].
      pose proof (omap_delivered runs Hd) as Hm. split; [exact Hm |].
      apply (f_equal length) in Hm. rewrite !length_map in Hm.
      rewrite Hm. apply detector_runs_length.
  - intros Ho.
    destruct (detect_ok cached_cn_preprocessors global_state m images res
                thr_a thr_b low_vram h p Hp He Hi)
      as (resp & h' & r_last & E & Hl & _ & _ & Hout).
    { fold name. rewrite Ho. discriminate. }
    fold name u runs in Hl, Hout.
    exists resp, h'. split; [exact E |].
    rewrite Ho in Hout. destruct (is_image r_last); tauto.
Qed.

(** C3.  For a non-empty list of N payloads none of which decodes to
    human and animal poses at once, [render_openpose_json] returns a
    response with "info" = "Success" whose "images" list holds exactly N
    strings: the encoding of the raster drawn for each payload, in input
    order. *)
Theorem render_openpose_json_images (pose_data : list PoseData) (h : Host) :
  pose_data <> [] ->
  Forall (fun pose => mixed pose = false) pose_data ->
  exists resp h' images,
    render_openpose_json pose_data h = (inr resp, h')
    /\ resp !! "images" = Some (VStrList images)
    /\ images = map (fun pose => encode_np_to_base64 (rendered pose)) pose_data
    /\ length images = length pose_data
    /\ resp !! "info" = Some (VStr "Success").
Proof.
  intros Hne Hv. destruct pose_data as [| pose rest]; [contradiction |].
  unfold render_openpose_json, bind.
  rewrite render_loop_ok by exact Hv. cbn [app].
  eexists _, _, _. split; [reflexivity |].
  split; [simplify_map_eq; reflexivity |]. split; [reflexivity |].
  split; [cbn [length]; now rewrite length_map |].
  simplify_map_eq; reflexivity.
Qed.

(** C4.  On the empty list [render_openpose_json] raises nothing, calls
    no collaborator, and returns the one-entry response
    {"info": "No pose data detected."}, which has no "images" key. *)
Theorem render_openpose_json_empty (h : Host) :
  exists resp,
    render_openpose_json [] h = (inr resp, h)
    /\ resp = {[ "info" := VStr "No pose data detected." ]}
    /\ resp !! "info" = Some (VStr "No pose data detected.")
    /\ resp !! "images" = None.
Proof.
  eexists. split; [reflexivity |]. split; [reflexivity |].
  split; simplify_map_eq; reflexivity.
Qed.

(** C5, as amended.  [encode_to_base64] returns without raising for a
    string, which comes back unchanged, and for a value that is neither a
    string, a PIL image nor a pixel array, for which it gives the empty
    string.  For a PIL image it returns the string the host's encoder
    gives; for a pixel array it returns the string the encoder gives for
    the image [Image.fromarray] builds.  It raises exactly what one of the
    two raises on that input, and nothing else: the exception of
    [Image.fromarray] on an array, or of the encoder on the image. *)
Theorem encode_to_base64_results {E : Type}
    (fromarray : Ndarray -> E + PILImage)
    (encode_pil : PILImage -> E + string) :
  (forall s, Fallible.encode_to_base64 fromarray encode_pil (PyStr s) = inr s)
  /\ (forall image,
        (forall s, image <> PyStr s) ->
        (forall im, image <> PyImage im) ->
        (forall a, image <> PyArray a) ->
        Fallible.encode_to_base64 fromarray encode_pil image = inr "")
  /\ (forall image e,
        Fallible.encode_to_base64 fromarray encode_pil image = inl e
        <-> (exists im, image = PyImage im /\ encode_pil im = inl e)
            \/ (exists a, image = PyArray a
                          /\ (fromarray a = inl e
                              \/ exists pil, fromarray a = inr pil
                                             /\ encode_pil pil = inl e)))
  /\ (forall image out,
        Fallible.encode_to_base64 fromarray encode_pil image = inr out ->
        (forall im, image = PyImage im -> encode_pil im = inr out)
        /\ (forall a, image = PyArray a ->
            exists pil, fromarray a = inr pil /\ encode_pil pil = inr out))
  /\ (forall image,
        (forall a, fromarray a = inr (Image_fromarray a)) ->
        (forall im, encode_pil im = inr (encode_pil_to_base64 im)) ->
        Fallible.encode_to_base64 fromarray encode_pil image
        = inr (encode_to_base64 image)).
Proof.
  split; [reflexivity |]. split.
  { intros [s | im | a | t | z |] Hs Him Ha; try reflexivity.
    - now destruct (Hs s).
    - now destruct (Him im).
    - now destruct (Ha a). }
  split.
  { intros image e. split.
    - destruct image as [s | im | a | t | z |]; cbn; try discriminate.
      + intros H. left. eauto.
      + unfold Fallible.encode_np_to_base64.
        destruct (fromarray a) as [e' | pil] eqn:Ef.
        * intros [= ->]. right. eauto.
        * intros H. right. exists a. split; [reflexivity |]. right. eauto.
    - intros [(im & -> & H) | (a & -> & [H | (pil & Hf & H)])]; cbn.
      + exact H.
      + unfold Fallible.encode_np_to_base64. now rewrite H.
      + unfold Fallible.encode_np_to_base64. now rewrite Hf. }
  split.
  { intros image out H. split.
    - intros im ->. exact H.
    - intros a ->. cbn in H. unfold Fallible.encode_np_to_base64 in H.
      destruct (fromarray a) as [e' | pil]; [discriminate H | eauto]. }
  intros [s | im | a | t | z |] Hf He; cbn; try reflexivity.
  - apply He.
  - unfold Fallible.encode_np_to_base64, encode_np_to_base64.
    rewrite Hf. apply He.
Qed.

(** C6, as amended.  A list of payloads one of which decodes to human and
    animal poses at once makes [render_openpose_json] raise an
    [AssertionError], not an HTTP exception.  For a payload that is not
    mixed exactly one drawing routine is called (the human one when human
    poses are present, the animal one otherwise); for a mixed payload the
    assertion fails before either routine is called. *)
Theorem draw_dispatch :
  (forall pose_data h,
     Exists (fun pose => mixed pose = true) pose_data ->
     exists h', render_openpose_json pose_data h = (inl AssertionError, h'))
  /\ (forall images pose h,
        let '(poses, animals, H, W) := decode_json_as_poses pose in
        exists new,
          calls (snd (render_body images pose h)) = calls h ++ new
          /\ List.filter is_draw_call new
             = match poses, animals with
               | _ :: _, _ :: _ => []
               | _ :: _, [] => [DrawPoses poses H W]
               | [], _ => [DrawAnimalposes animals H W]
               end).
Proof.
  split.
  - intros pose_data h Hx. destruct pose_data as [| pose rest];
      [inversion Hx |].
    unfold render_openpose_json, bind.
    destruct (render_loop_fail (pose :: rest) [] h Hx) as [h' ->]. eauto.
  - intros images pose h.
    pose proof (render_body_eq images pose h) as E.
    unfold payload_calls, mixed, draw_call in E.
    destruct (decode_json_as_poses pose) as [[[ps an] H] W].
    rewrite E. cbn [snd calls]. eexists. split; [reflexivity |].
    destruct ps as [| x ps]; [| destruct an as [| y an]]; reflexivity.
Qed.

(** C7.  Where the framework's loader gives back the object its saver
    was given, decoding the string of [encode_tensor_to_base64] from
    base64 and loading the bytes gives back the object that was encoded. *)
Theorem encode_tensor_round_trip (obj : PyObj) :
  torch_load (torch_save obj) = Some obj ->
  decode_tensor_from_base64 (encode_tensor_to_base64 obj) = Some obj.
Proof.
  intros Hl. unfold decode_tensor_from_base64, encode_tensor_to_base64.
  unfold encode_utf8, decode_utf8.
  rewrite String.list_byte_of_string_of_list_byte.
  rewrite Base64Facts.b64decode_b64encode.
  unfold BytesIO.getvalue, BytesIO.seek, BytesIO.write, BytesIO.new.
  cbn [BytesIO.contents BytesIO.pos length Nat.sub replicate take drop app].
  now rewrite drop_nil, app_nil_r.
Qed.

End Properties.

(** ** The properties on the small host *)

#[local] Existing Instance Demo.opaque.
#[local] Existing Instance Demo.collaborators.

Lemma demo_not_excluded (name : string) :
  bool_decide (name ∈ excluded_modules) = false -> name ∉ excluded_modules.
Proof. intros E. now apply bool_decide_eq_false in E. Defined.

(** C1 on three requests, one for each rejection, and one that passes. *)
Lemma detect_422_iff_witness :
  (exists detail h',
     detect Demo.cached_cn_preprocessors Demo.global_state "canny edge" []
            (-1) (-1)%Z (-1)%Z false Demo.fresh
     = (inl (HTTPException 422 detail), h'))
  /\ (exists detail h',
        detect Demo.cached_cn_preprocessors Demo.global_state "clip_vision"
               ["a"] (-1) (-1)%Z (-1)%Z false Demo.fresh
        = (inl (HTTPException 422 detail), h'))
  /\ (exists detail h',
        detect Demo.cached_cn_preprocessors Demo.global_state "none"
               ["a"] (-1) (-1)%Z (-1)%Z false Demo.fresh
        = (inl (HTTPException 422 detail), h')).
Proof.
  repeat split.
  - apply (proj1 (detect_422_iff Demo.cached_cn_preprocessors
                    Demo.global_state "canny edge" [] (-1) (-1)%Z (-1)%Z
                    false Demo.fresh)).
    right. right. reflexivity.
  - apply (proj1 (detect_422_iff Demo.cached_cn_preprocessors
                    Demo.global_state "clip_vision" ["a"] (-1) (-1)%Z (-1)%Z
                    false Demo.fresh)).
    right. left. apply (bool_decide_unpack _). vm_compute. exact I.
  - apply (proj1 (detect_422_iff Demo.cached_cn_preprocessors
                    Demo.global_state "none" ["a"] (-1) (-1)%Z (-1)%Z
                    false Demo.fresh)).
    left. vm_compute. reflexivity.
Defined.

(** C8 on a request for an excluded module. *)
Lemma detect_422_leaves_host_untouched_witness :
  detect Demo.cached_cn_preprocessors Demo.global_state "clip_vision"
         ["a"; "b"] 512 (-1)%Z (-1)%Z false Demo.fresh
  = (inl (HTTPException 422 "Module not supported"), Demo.fresh)
  /\ Demo.fresh = Demo.fresh
  /\ calls Demo.fresh = calls Demo.fresh
  /\ world Demo.fresh = world Demo.fresh.
Proof.
  split; [vm_compute; reflexivity |].
  apply (detect_422_leaves_host_untouched Demo.cached_cn_preprocessors
           Demo.global_state "clip_vision" ["a"; "b"] 512 (-1)%Z (-1)%Z false
           Demo.fresh "Module not supported" Demo.fresh).
  vm_compute. reflexivity.
Defined.

(** C2, as amended, on a pose request through an alias. *)
Lemma detect_success_witness :
  exists resp h',
    detect Demo.cached_cn_preprocessors Demo.global_state "pose" ["a"; "b"]
           (-1) (-1)%Z (-1)%Z false Demo.fresh = (inr resp, h')
    /\ resp !! "info" = Some (VStr "Success").
Proof.
  destruct (detect_success Demo.cached_cn_preprocessors Demo.global_state
              "pose" ["a"; "b"] (-1) (-1)%Z (-1)%Z false Demo.fresh
              Demo.openpose)
    as (resp & h' & new & r_last & outs & E & _ & _ & Hinfo & _).
  - vm_compute. reflexivity.
  - apply demo_not_excluded. vm_compute. reflexivity.
  - discriminate.
  - intros _. cbn. repeat constructor; discriminate.
  - exists resp, h'. split; [exact E | exact Hinfo].
Defined.

(** C2 as stated fails: a request that passes validation, for a pose
    module whose first run leaves the sink empty, ends in an
    [AssertionError] after one call of the preprocessor for two images. *)
Lemma detect_success_counterexample :
  (Demo.cached_cn_preprocessors !! canonical Demo.global_state "openpose_hand"
   = Some Demo.openpose_silent)
  /\ (canonical Demo.global_state "openpose_hand" ∉ excluded_modules)
  /\ fst (detect Demo.cached_cn_preprocessors Demo.global_state
            "openpose_hand" ["a"; "b"] (-1) (-1)%Z (-1)%Z false Demo.fresh)
     = inl AssertionError
  /\ length (List.filter is_processor_call
               (calls (snd (detect Demo.cached_cn_preprocessors
                              Demo.global_state "openpose_hand" ["a"; "b"]
                              (-1) (-1)%Z (-1)%Z false Demo.fresh)))) = 1
  /\ ~ (exists resp h',
          detect Demo.cached_cn_preprocessors Demo.global_state
            "openpose_hand" ["a"; "b"] (-1) (-1)%Z (-1)%Z false Demo.fresh
          = (inr resp, h')).
Proof.
  split; [vm_compute; reflexivity |].
  split; [apply demo_not_excluded; vm_compute; reflexivity |].
  assert (E : fst (detect Demo.cached_cn_preprocessors Demo.global_state
                     "openpose_hand" ["a"; "b"] (-1) (-1)%Z (-1)%Z false
                     Demo.fresh) = inl AssertionError)
    by (vm_compute; reflexivity).
  split; [exact E |]. split; [vm_compute; reflexivity |].
  intros (resp & h' & E'). rewrite E' in E. discriminate E.
Qed.

(** C10 on a preprocessor whose first run flags an image and whose second
    run flags a tensor: both outputs go under "tensor". *)
Lemma detect_encoding_follows_last_flag_witness :
  exists resp h',
    detect Demo.cached_cn_preprocessors Demo.global_state "shuffle" ["a"; "b"]
           (-1) (-1)%Z (-1)%Z false Demo.fresh = (inr resp, h')
    /\ map is_image
         (detector_runs Demo.alternating
            (checked_unit "shuffle" (-1) (-1)%Z (-1)%Z) false ["a"; "b"] 0)
       = [true; false]
    /\ (exists outs, resp !! "tensor" = Some (VStrList outs) /\ length outs = 2)
    /\ resp !! "images" = None.
Proof.
  destruct (detect_encoding_follows_last_flag Demo.cached_cn_preprocessors
              Demo.global_state "shuffle" ["a"; "b"] (-1) (-1)%Z (-1)%Z false
              Demo.fresh Demo.alternating)
    as (resp & h' & r_last & E & Hl & _ & Ht).
  - vm_compute. reflexivity.
  - apply demo_not_excluded. vm_compute. reflexivity.
  - discriminate.
  - intros Ho. vm_compute in Ho. discriminate Ho.
  - exists resp, h'. split; [exact E |]. split; [reflexivity |].
    assert (Ef : is_image r_last = false).
    { cbn in Hl. injection Hl as <-. reflexivity. }
    destruct (Ht Ef) as [Htensor Himages].
    split; [| exact Himages]. eexists. split; [exact Htensor | reflexivity].
Defined.

(** C9, as amended, on a pose request: one pose per image, in order. *)
Lemma detect_poses_witness :
  exists resp h',
    detect Demo.cached_cn_preprocessors Demo.global_state "openpose"
           ["a"; "b"] (-1) (-1)%Z (-1)%Z false Demo.fresh = (inr resp, h')
    /\ resp !! "poses" = Some (VPoses ["pose:array:a"; "pose:array:b"]).
Proof.
  destruct (detect_poses Demo.cached_cn_preprocessors Demo.global_state
              "openpose" ["a"; "b"] (-1) (-1)%Z (-1)%Z false Demo.fresh
              Demo.openpose) as [Hpose _].
  - vm_compute. reflexivity.
  - apply demo_not_excluded. vm_compute. reflexivity.
  - discriminate.
  - destruct (Hpose eq_refl) as [_ Hall].
    destruct Hall as (resp & h' & r_last & E & Hl & Hp).
    + cbn. repeat constructor; discriminate.
    + exists resp, h'. split; [exact E |].
      cbn in Hl. injection Hl as <-. cbn in Hp.
      destruct Hp as (ps & Hps & Hm & _).
      destruct ps as [| x [| y [| z ps]]]; try discriminate Hm.
      injection Hm as -> ->. exact Hps.
Defined.

(** C9 as stated fails: a pose module that hands over pose data on every
    run but flags its output as a tensor gets a response without "poses". *)
Lemma detect_poses_counterexample :
  (Demo.cached_cn_preprocessors !! canonical Demo.global_state "openpose_face"
   = Some Demo.openpose_embedding)
  /\ (canonical Demo.global_state "openpose_face" ∉ excluded_modules)
  /\ str_contains "openpose" (canonical Demo.global_state "openpose_face") = true
  /\ Forall (fun r => callback_args r <> [])
       (detector_runs Demo.openpose_embedding
          (checked_unit "openpose_face" (-1) (-1)%Z (-1)%Z) false ["a"; "b"] 0)
  /\ match fst (detect Demo.cached_cn_preprocessors Demo.global_state
                  "openpose_face" ["a"; "b"] (-1) (-1)%Z (-1)%Z false
                  Demo.fresh) with
     | inr resp => resp !! "poses" = None
                   /\ resp !! "info" = Some (VStr "Success")
     | inl _ => False
     end.
Proof.
  split; [vm_compute; reflexivity |].
  split; [apply demo_not_excluded; vm_compute; reflexivity |].
  split; [vm_compute; reflexivity |].
  split; [cbn; repeat constructor; discriminate |].
  vm_compute. split; reflexivity.
Qed.

(** C3 on a human payload followed by an animal payload. *)
Lemma render_openpose_json_images_witness :
  exists resp h',
    render_openpose_json [Demo.human_payload; Demo.animal_payload] Demo.fresh
    = (inr resp, h')
    /\ resp !! "images"
       = Some (VStrList ["b64:pil:humans:1"; "b64:pil:animals:1"])
    /\ resp !! "info" = Some (VStr "Success").
Proof.
  destruct (render_openpose_json_images
              [Demo.human_payload; Demo.animal_payload] Demo.fresh)
    as (resp & h' & images & E & Hi & -> & _ & Hinfo).
  - discriminate.
  - repeat constructor.
  - exists resp, h'. split; [exact E |]. split; [exact Hi | exact Hinfo].
Defined.

(** C5, as amended, on an array PIL accepts and on a tensor. *)
Lemma encode_to_base64_results_witness :
  Fallible.encode_to_base64 Demo3.fromarray Demo3.encode_pil
    (PyArray Demo3.rgb_array) = inr "b64:pil:RGB;2x2"
  /\ Fallible.encode_to_base64 Demo3.fromarray Demo3.encode_pil
       Demo.sample_tensor = inr ""
  /\ exists pil,
       Demo3.fromarray Demo3.rgb_array = inr pil
       /\ Demo3.encode_pil pil = inr "b64:pil:RGB;2x2".
Proof.
  destruct (encode_to_base64_results Demo3.fromarray Demo3.encode_pil)
    as (_ & Hother & _ & Hout & _).
  split; [reflexivity |]. split.
  - apply Hother; discriminate.
  - apply (proj2 (Hout (PyArray Demo3.rgb_array) "b64:pil:RGB;2x2" eq_refl)
             Demo3.rgb_array eq_refl).
Defined.

(** C5 as stated fails: for a pixel array [Image.fromarray] has no mode
    for, the helper returns no string: the [TypeError] leaves it.  The
    same holds for an image the host's encoder cannot write. *)
Lemma encode_to_base64_results_counterexample :
  Fallible.encode_to_base64 Demo3.fromarray Demo3.encode_pil
    (PyArray Demo3.four_axes_array)
  = inl "TypeError: Cannot handle this data type"
  /\ Fallible.encode_to_base64 Demo3.fromarray Demo3.encode_pil
       (PyArray Demo3.float_array)
     = inl "OSError: cannot write mode F as PNG"
  /\ ~ (forall image, exists out,
          Fallible.encode_to_base64 Demo3.fromarray Demo3.encode_pil image
          = inr out).
Proof.
  split; [reflexivity |]. split; [reflexivity |].
  intros H. destruct (H (PyArray Demo3.four_axes_array)) as [out Hout].
  discriminate Hout.
Qed.

(** C6, as amended, on a list whose second payload is mixed. *)
Lemma draw_dispatch_witness :
  mixed Demo.mixed_payload = true
  /\ exists h',
       render_openpose_json [Demo.human_payload; Demo.mixed_payload] Demo.fresh
       = (inl AssertionError, h').
Proof.
  split; [reflexivity |].
  apply (proj1 draw_dispatch). right. left. reflexivity.
Defined.

(** C6 as stated fails: for a mixed payload no drawing routine is called. *)
Lemma draw_dispatch_counterexample :
  mixed Demo.mixed_payload = true
  /\ fst (render_openpose_json [Demo.mixed_payload] Demo.fresh)
     = inl AssertionError
  /\ List.filter is_draw_call
       (calls (snd (render_openpose_json [Demo.mixed_payload] Demo.fresh)))
     = []
  /\ length (List.filter is_draw_call
               (calls (snd (render_openpose_json [Demo.mixed_payload]
                              Demo.fresh)))) <> 1.
Proof.
  split; [reflexivity |]. split; [reflexivity |].
  split; [reflexivity |]. cbn. discriminate.
Qed.

(** C7 on a seven-byte tensor. *)
Lemma encode_tensor_round_trip_witness :
  encode_tensor_to_base64 Demo.sample_tensor = "bGlnaHQgdw=="
  /\ decode_tensor_from_base64 (encode_tensor_to_base64 Demo.sample_tensor)
     = Some Demo.sample_tensor.
Proof.
  split; [reflexivity |].
  apply (encode_tensor_round_trip Demo.sample_tensor).
  reflexivity.
Defined.

(** ** More about [detect] *)
Section DetectMore.

Context {O : Opaque} {C : Collaborators}.

Variables (cached_cn_preprocessors : gmap string Detector)
          (global_state : GlobalState).

Lemma for_each_app {A S : Type} (body : S -> A -> M S) (xs ys : list A) :
  forall (st : S) (h : Host),
    for_each body (xs ++ ys) st h
    = match for_each body xs st h with
      | (inr st', h') => for_each body ys st' h'
      | (inl e, h') => (inl e, h')
      end.
Proof.
  induction xs as [| x xs IH]; intros st h; [reflexivity |].
  cbn [app for_each]. unfold bind.
  destruct (body st x h) as [[e | st'] h']; [reflexivity | apply IH].
Qed.

Lemma world_after_app (p : Detector) (u : ControlNetUnit) (low_vram : bool)
    (xs ys : list string) :
  forall w, world_after p u low_vram (xs ++ ys) w
            = world_after p u low_vram ys (world_after p u low_vram xs w).
Proof.
  induction xs as [| x xs IH]; intros w; [reflexivity |].
  cbn [app world_after]. destruct (p _ _ _ _ _ _) as [r w']. apply IH.
Qed.

Lemma runs_all_or_some (runs : list DetectorRun) :
  Forall (fun r => callback_args r <> []) runs
  \/ Exists (fun r => callback_args r = []) runs.
Proof.
  induction runs as [| r runs [IH | IH]].
  - left. constructor.
  - destruct (callback_args r) eqn:E.
    + right. left. exact E.
    + left. constructor; [rewrite E; discriminate | exact IH].
  - right. right. exact IH.
Qed.

(** The loop on a list whose first run without pose data is the one on
    [i]: it stops there, the image decoded and the preprocessor called. *)
Lemma detect_loop_stops (p : Detector) (name : string) (u : ControlNetUnit)
    (low_vram : bool) (pre : list string) (i : string) (post : list string)
    (vars : DetectVars) (h : Host) :
  str_contains "openpose" name = true ->
  Forall (fun r => callback_args r <> [])
         (detector_runs p u low_vram pre (world h)) ->
  callback_args (next_run p u low_vram pre i (world h)) = [] ->
  for_each (detect_body p name u low_vram) (pre ++ i :: post) vars h
  = (inl AssertionError,
     {| world := world_after p u low_vram (pre ++ [i]) (world h);
        calls := calls h ++ loop_calls name u low_vram (pre ++ [i]) |}).
Proof.
  intros Ho Hpre Hi. unfold next_run in Hi.
  rewrite for_each_app, detect_loop_ok by (intros _; exact Hpre).
  cbn [for_each]. unfold bind. rewrite detect_body_eq. cbn [world calls].
  rewrite world_after_app. cbn [world_after].
  destruct (p _ _ _ _ _ _) as [r w']. cbn [fst] in Hi. cbn zeta.
  rewrite Ho. apply delivered_None in Hi. rewrite Hi.
  unfold loop_calls. rewrite flat_map_app. cbn [flat_map].
  rewrite app_nil_r, <- app_assoc. reflexivity.
Qed.

(** A validated request on which no assertion fails, in full. *)
Lemma detect_run_eq m images res thr_a thr_b low_vram h p :
  let name := canonical global_state m in
  let u := checked_unit name res thr_a thr_b in
  let runs := detector_runs p u low_vram images (world h) in
  cached_cn_preprocessors !! name = Some p ->
  name ∉ excluded_modules ->
  images <> [] ->
  (str_contains "openpose" name = true ->
   Forall (fun r => callback_args r <> []) runs) ->
  exists r_last,
    last runs = Some r_last
    /\ detect cached_cn_preprocessors global_state m images res thr_a thr_b
              low_vram h
       = (inr (detect_response name runs (is_image r_last)),
          {| world := unloaded global_state name
                        (world_after p u low_vram images (world h));
             calls := calls h ++ preamble_calls name images res thr_a thr_b
                      ++ loop_calls name u low_vram images
                      ++ unload_calls global_state name |}).
Proof.
  intros name u runs Hp He Hi Hd.
  destruct (last_of_runs p u low_vram images (world h) Hi) as [r_last Hl].
  fold runs in Hl. exists r_last. split; [exact Hl |].
  rewrite (detect_validated cached_cn_preprocessors global_state m images res
             thr_a thr_b low_vram h p Hp He Hi).
  fold name. fold u.
  rewrite detect_loop_ok by exact Hd.
  cbn [world calls results poses is_image_var app].
  fold runs. rewrite Hl. cbn zeta.
  assert (Hh : match cn_preprocessor_unloadable global_state !! name with
               | Some unload =>
                   {| world := unload (world_after p u low_vram images (world h));
                      calls := (calls h
                                ++ preamble_calls name images res thr_a thr_b
                                ++ loop_calls name u low_vram images)
                               ++ [Unload name] |}
               | None =>
                   {| world := world_after p u low_vram images (world h);
                      calls := calls h
                               ++ preamble_calls name images res thr_a thr_b
                               ++ loop_calls name u low_vram images |}
               end
               = {| world := unloaded global_state name
                               (world_after p u low_vram images (world h));
                    calls := calls h
                             ++ preamble_calls name images res thr_a thr_b
                             ++ loop_calls name u low_vram images
                             ++ unload_calls global_state name |}).
  { unfold unloaded, unload_calls.
    destruct (cn_preprocessor_unloadable global_state !! name);
      rewrite <- ?app_assoc, ?app_nil_r; reflexivity. }
  rewrite <- !app_assoc. rewrite <- !app_assoc in Hh. rewrite Hh.
  unfold detect_response.
  destruct (is_image r_last); [| reflexivity].
  destruct (str_contains "openpose" name) eqn:Eo; [| reflexivity].
  specialize (Hd eq_refl).
  destruct (omap delivered runs) as [| v vs] eqn:Eom; [| reflexivity].
  exfalso. apply omap_delivered in Hd. rewrite Eom in Hd.
  destruct runs; [discriminate Hl | discriminate Hd].
Qed.

(** A response of [detect] comes from a validated request on which every
    run of a pose module handed over pose data. *)
Lemma detect_returns_inv m images res thr_a thr_b low_vram h resp h' :
  detect cached_cn_preprocessors global_state m images res thr_a thr_b
         low_vram h = (inr resp, h') ->
  let name := canonical global_state m in
  exists p,
    cached_cn_preprocessors !! name = Some p
    /\ (name ∉ excluded_modules)
    /\ images <> []
    /\ (str_contains "openpose" name = true ->
        Forall (fun r => callback_args r <> [])
               (detector_runs p (checked_unit name res thr_a thr_b) low_vram
                  images (world h))).
Proof.
  intros E name. subst name.
  destruct (cached_cn_preprocessors !! canonical global_state m) as [p |] eqn:Hp.
  2:{ rewrite detect_not_available in E by exact Hp. discriminate E. }
  destruct (decide (canonical global_state m ∈ excluded_modules)) as [He | He].
  { rewrite detect_not_supported in E by (rewrite ?Hp; eauto). discriminate E. }
  destruct images as [| i images].
  { rewrite detect_no_image in E by (rewrite ?Hp; eauto). discriminate E. }
  exists p. split; [reflexivity |]. split; [exact He |].
  split; [discriminate |]. intros Ho.
  destruct (runs_all_or_some
              (detector_runs p
                 (checked_unit (canonical global_state m) res thr_a thr_b)
                 low_vram (i :: images) (world h))) as [F | X]; [exact F |].
  destruct (detect_assertion cached_cn_preprocessors global_state m
              (i :: images) res thr_a thr_b low_vram h p Hp He
              ltac:(discriminate) Ho X) as [h1 E1].
  rewrite E1 in E. discriminate E.
Qed.

(** X1.  The three rejections are tried in a fixed order and each has its
    own detail: a name missing from the cached preprocessors is "Module not
    available" whatever else is wrong with the request; a cached but
    excluded name is "Module not supported", also with an empty image
    list; "No image selected" is left for a cached, supported name. *)
Theorem detect_rejection_detail m images res thr_a thr_b low_vram h
    code detail h' :
  detect cached_cn_preprocessors global_state m images res thr_a thr_b
         low_vram h = (inl (HTTPException code detail), h')
  <-> code = 422%Z /\ h' = h
      /\ ((cached_cn_preprocessors !! canonical global_state m = None
           /\ detail = "Module not available")
          \/ (is_Some (cached_cn_preprocessors !! canonical global_state m)
              /\ canonical global_state m ∈ excluded_modules
              /\ detail = "Module not supported")
          \/ (is_Some (cached_cn_preprocessors !! canonical global_state m)
              /\ (canonical global_state m ∉ excluded_modules)
              /\ images = []
              /\ detail = "No image selected")).
Proof.
  split.
  - intros E. pose proof E as E0.
    apply detect_http_inv in E0 as (-> & -> & _).
    split; [reflexivity |]. split; [reflexivity |].
    destruct (cached_cn_preprocessors !! canonical global_state m)
      as [p |] eqn:Hp.
    2:{ rewrite detect_not_available in E by exact Hp.
        left. split; [reflexivity | congruence]. }
    destruct (decide (canonical global_state m ∈ excluded_modules)) as [He | He].
    { rewrite detect_not_supported in E by (rewrite ?Hp; eauto).
      right. left. split; [eauto |]. split; [exact He | congruence]. }
    destruct images as [| i images].
    { rewrite detect_no_image in E by (rewrite ?Hp; eauto).
      right. right. split; [eauto |]. split; [exact He |].
      split; [reflexivity | congruence]. }
    exfalso.
    destruct (runs_all_or_some
                (detector_runs p
                   (checked_unit (canonical global_state m) res thr_a thr_b)
                   low_vram (i :: images) (world h))) as [F | X].
    + destruct (detect_ok cached_cn_preprocessors global_state m (i :: images)
                  res thr_a thr_b low_vram h p Hp He ltac:(discriminate)
                  (fun _ => F)) as (resp & h1 & r & E1 & _).
      rewrite E1 in E. discriminate E.
    + destruct (str_contains "openpose" (canonical global_state m)) eqn:Ho.
      * destruct (detect_assertion cached_cn_preprocessors global_state m
                    (i :: images) res thr_a thr_b low_vram h p Hp He
                    ltac:(discriminate) Ho X) as [h1 E1].
        rewrite E1 in E. discriminate E.
      * destruct (detect_ok cached_cn_preprocessors global_state m
                    (i :: images) res thr_a thr_b low_vram h p Hp He
                    ltac:(discriminate)) as (resp & h1 & r & E1 & _).
        { rewrite Ho. discriminate. }
        rewrite E1 in E. discriminate E.
  - intros (-> & -> & [(Hn & ->) | [(Hs & He & ->) | (Hs & He & -> & ->)]]).
    + now apply detect_not_available.
    + now apply detect_not_supported.
    + now apply detect_no_image.
Qed.

(** On the runs on which the collaborators return, [detect] ends with a
    rejection that leaves the host as it was, with an [AssertionError]
    (for a module whose name contains "openpose"), or with a response. *)
Lemma detect_outcomes m images res thr_a thr_b low_vram h :
  ((exists detail,
      detect cached_cn_preprocessors global_state m images res thr_a thr_b
             low_vram h = (inl (HTTPException 422 detail), h))
   \/ (exists h',
         detect cached_cn_preprocessors global_state m images res thr_a thr_b
                low_vram h = (inl AssertionError, h')
         /\ str_contains "openpose" (canonical global_state m) = true)
   \/ (exists resp h',
         detect cached_cn_preprocessors global_state m images res thr_a thr_b
                low_vram h = (inr resp, h')))
  /\ (forall key h',
        detect cached_cn_preprocessors global_state m images res thr_a thr_b
               low_vram h <> (inl (KeyError key), h'))
  /\ (forall var h',
        detect cached_cn_preprocessors global_state m images res thr_a thr_b
               low_vram h <> (inl (UnboundLocalError var), h')).
Proof.
  assert (D : (exists detail,
      detect cached_cn_preprocessors global_state m images res thr_a thr_b
             low_vram h = (inl (HTTPException 422 detail), h))
   \/ (exists h',
         detect cached_cn_preprocessors global_state m images res thr_a thr_b
                low_vram h = (inl AssertionError, h')
         /\ str_contains "openpose" (canonical global_state m) = true)
   \/ (exists resp h',
         detect cached_cn_preprocessors global_state m images res thr_a thr_b
                low_vram h = (inr resp, h'))).
  { destruct (cached_cn_preprocessors !! canonical global_state m)
      as [p |] eqn:Hp.
    2:{ left. eexists. now apply detect_not_available. }
    destruct (decide (canonical global_state m ∈ excluded_modules)) as [He | He].
    { left. eexists. apply detect_not_supported; [rewrite Hp; eauto | exact He]. }
    destruct images as [| i images].
    { left. eexists. apply detect_no_image; [rewrite Hp; eauto | exact He]. }
    right.
    destruct (str_contains "openpose" (canonical global_state m)) eqn:Ho.
    - destruct (runs_all_or_some
                  (detector_runs p
                     (checked_unit (canonical global_state m) res thr_a thr_b)
                     low_vram (i :: images) (world h))) as [F | X].
      + right.
        destruct (detect_ok cached_cn_preprocessors global_state m
                    (i :: images) res thr_a thr_b low_vram h p Hp He
                    ltac:(discriminate) (fun _ => F))
          as (resp & h1 & r & E1 & _).
        eauto.
      + left.
        destruct (detect_assertion cached_cn_preprocessors global_state m
                    (i :: images) res thr_a thr_b low_vram h p Hp He
                    ltac:(discriminate) Ho X) as [h1 E1].
        eauto.
    - right.
      destruct (detect_ok cached_cn_preprocessors global_state m
                  (i :: images) res thr_a thr_b low_vram h p Hp He
                  ltac:(discriminate)) as (resp & h1 & r & E1 & _).
      { rewrite Ho. discriminate. }
      eauto. }
  split; [exact D |].
  split; intros x h' E;
    destruct D as [(d & E1) | [(h1 & E1 & _) | (resp & h1 & E1)]];
    rewrite E1 in E; discriminate E.
Qed.

(** X2.  The two raises of the handler's own code that validation is
    there to prevent are never reached: the lookup
    [cached_cn_preprocessors[controlnet_module]] of line 142 finds its key,
    so [detect] raises no [KeyError], and the loop has run at least once
    when [is_image] is read at line 171, so the variable is never
    unbound.  (An exception a collaborator raises is not the handler's
    own and is outside this statement.) *)
Theorem detect_lookup_and_flag_safe m images res thr_a thr_b low_vram h :
  (forall key h',
     detect cached_cn_preprocessors global_state m images res thr_a thr_b
            low_vram h <> (inl (KeyError key), h'))
  /\ (forall var h',
        detect cached_cn_preprocessors global_state m images res thr_a thr_b
               low_vram h <> (inl (UnboundLocalError var), h')).
Proof.
  exact (proj2 (detect_outcomes m images res thr_a thr_b low_vram h)).
Qed.

(** X3.  Alias resolution is a single lookup: [detect] on a name behaves
    as [detect] with an empty alias table on the name the table gives for
    it.  The resolved name is not looked up again, so an alias of an alias
    is not followed. *)
Theorem detect_resolves_once m images res thr_a thr_b low_vram h :
  detect cached_cn_preprocessors global_state m images res thr_a thr_b
         low_vram h
  = detect cached_cn_preprocessors (without_aliases global_state)
           (canonical global_state m) images res thr_a thr_b low_vram h.
Proof.
  unfold detect. fold (canonical global_state m).
  cbn [without_aliases reverse_preprocessor_aliases cn_preprocessor_unloadable].
  rewrite lookup_empty. reflexivity.
Qed.

(** X4.  The host after a request that [detect] answers: the world is the
    one the runs of the preprocessor left, passed through the module's
    unload hook when it has one; the calls are the log line, the parameter
    object and its bound check, then for each image, in input order, its
    decoding followed by the call of the preprocessor, and last the unload
    hook, called once and only when the registry has one. *)
Theorem detect_host_after_success m images res thr_a thr_b low_vram h p :
  let name := canonical global_state m in
  let u := checked_unit name res thr_a thr_b in
  cached_cn_preprocessors !! name = Some p ->
  name ∉ excluded_modules ->
  images <> [] ->
  (str_contains "openpose" name = true ->
   Forall (fun r => callback_args r <> [])
          (detector_runs p u low_vram images (world h))) ->
  snd (detect cached_cn_preprocessors global_state m images res thr_a thr_b
              low_vram h)
  = {| world := unloaded global_state name
                  (world_after p u low_vram images (world h));
       calls := calls h ++ preamble_calls name images res thr_a thr_b
                ++ flat_map (fun i => [ToBase64Nparray i;
                                       processor_call name u low_vram i])
                            images
                ++ unload_calls global_state name |}.
Proof.
  intros name u Hp He Hi Hd.
  destruct (detect_run_eq m images res thr_a thr_b low_vram h p Hp He Hi Hd)
    as (r_last & _ & E).
  fold name u in E. rewrite E. reflexivity.
Qed.

(** X5.  When a run of a pose module leaves the callback sink empty,
    [detect] stops right after that run: the images after it are neither
    decoded nor processed, the unload hook is not called, and the world
    stays as the runs made so far left it. *)
Theorem detect_stops_at_silent_run m pre i post res thr_a thr_b low_vram h p :
  let name := canonical global_state m in
  let u := checked_unit name res thr_a thr_b in
  cached_cn_preprocessors !! name = Some p ->
  name ∉ excluded_modules ->
  str_contains "openpose" name = true ->
  Forall (fun r => callback_args r <> [])
         (detector_runs p u low_vram pre (world h)) ->
  callback_args (next_run p u low_vram pre i (world h)) = [] ->
  detect cached_cn_preprocessors global_state m (pre ++ i :: post) res thr_a
         thr_b low_vram h
  = (inl AssertionError,
     {| world := world_after p u low_vram (pre ++ [i]) (world h);
        calls := calls h
                 ++ preamble_calls name (pre ++ i :: post) res thr_a thr_b
                 ++ flat_map (fun j => [ToBase64Nparray j;
                                        processor_call name u low_vram j])
                             (pre ++ [i]) |}).
Proof.
  intros name u Hp He Ho Hpre Hi.
  rewrite (detect_validated cached_cn_preprocessors global_state m
             (pre ++ i :: post) res thr_a thr_b low_vram h p Hp He)
    by (destruct pre; discriminate).
  fold name. fold u.
  rewrite detect_loop_stops; [| exact Ho | exact Hpre | exact Hi].
  cbn [world calls]. rewrite <- app_assoc. reflexivity.
Qed.

(** X6.  A response of [detect] has one of three sets of keys: "info" and
    "images"; "info", "images" and "poses" (only for a module whose name
    contains "openpose"); or "info" and "tensor".  It never has "images"
    and "tensor" together, nor "poses" beside "tensor". *)
Theorem detect_response_keys m images res thr_a thr_b low_vram h resp h' :
  detect cached_cn_preprocessors global_state m images res thr_a thr_b
         low_vram h = (inr resp, h') ->
  (dom resp = ({[ "info"; "images" ]} : gset string)
   /\ str_contains "openpose" (canonical global_state m) = false)
  \/ (dom resp = ({[ "info"; "images"; "poses" ]} : gset string)
      /\ str_contains "openpose" (canonical global_state m) = true)
  \/ dom resp = ({[ "info"; "tensor" ]} : gset string).
Proof.
  intros E.
  destruct (detect_returns_inv m images res thr_a thr_b low_vram h resp h' E)
    as (p & Hp & He & Hi & Hd).
  destruct (detect_run_eq m images res thr_a thr_b low_vram h p Hp He Hi Hd)
    as (r_last & _ & E1).
  rewrite E1 in E. injection E as <- _. unfold detect_response, Response.
  destruct (is_image r_last).
  - destruct (str_contains "openpose" (canonical global_state m)).
    + right. left. split; [| reflexivity].
      rewrite !dom_insert_L, dom_singleton_L. set_solver.
    + left. split; [| reflexivity].
      rewrite !dom_insert_L, dom_singleton_L. set_solver.
  - right. right. rewrite !dom_insert_L, dom_singleton_L. set_solver.
Qed.

End DetectMore.

(** ** More about [render_openpose_json] *)
Section RenderMore.

Context {O : Opaque} {C : Collaborators}.

Lemma payload_calls_drawn (pose_data : list PoseData) :
  Forall (fun pose => mixed pose = false) pose_data ->
  flat_map payload_calls pose_data
  = flat_map (fun pose => [DecodeJsonAsPoses pose; draw_call pose]) pose_data.
Proof.
  induction 1 as [| pose pose_data Hp _ IH]; [reflexivity |].
  cbn [flat_map]. rewrite IH. unfold payload_calls. now rewrite Hp.
Qed.

Lemma payloads_all_or_some (pose_data : list PoseData) :
  Forall (fun pose => mixed pose = false) pose_data
  \/ Exists (fun pose => mixed pose = true) pose_data.
Proof.
  induction pose_data as [| pose pose_data [IH | IH]].
  - left. constructor.
  - destruct (mixed pose) eqn:E.
    + right. left. exact E.
    + left. constructor; assumption.
  - right. right. exact IH.
Qed.

(** X7.  [render_openpose_json] stops at the first payload that decodes
    to human and animal poses at once: the payloads before it have been
    decoded and drawn, the mixed one has been decoded only, and those
    after it are not touched. *)
Theorem render_stops_at_mixed (pre : list PoseData) (pose : PoseData)
    (post : list PoseData) (h : Host) :
  Forall (fun q => mixed q = false) pre ->
  mixed pose = true ->
  render_openpose_json (pre ++ pose :: post) h
  = (inl AssertionError,
     {| world := world h;
        calls := calls h
                 ++ flat_map (fun q => [DecodeJsonAsPoses q; draw_call q]) pre
                 ++ [DecodeJsonAsPoses pose] |}).
Proof.
  intros Hpre Hm.
  assert (E : for_each render_body (pre ++ pose :: post) [] h
              = (inl AssertionError,
                 {| world := world h;
                    calls := calls h
                             ++ flat_map (fun q => [DecodeJsonAsPoses q;
                                                    draw_call q]) pre
                             ++ [DecodeJsonAsPoses pose] |})).
  { rewrite for_each_app, render_loop_ok by exact Hpre.
    cbn [for_each]. unfold bind. rewrite render_body_eq, Hm.
    cbn [world calls]. unfold payload_calls at 2. rewrite Hm.
    rewrite payload_calls_drawn by exact Hpre.
    now rewrite <- app_assoc. }
  unfold render_openpose_json.
  destruct (pre ++ pose :: post) as [| x xs] eqn:El;
    [destruct pre; discriminate El |].
  unfold bind. now rewrite E.
Qed.

(** X8.  When no payload is mixed, [render_openpose_json] leaves the world
    as it was and has decoded and drawn each payload once, in input order:
    the decoding of a payload is followed by the one drawing routine its
    content selects. *)
Theorem render_host_after_success (pose_data : list PoseData) (h : Host) :
  Forall (fun q => mixed q = false) pose_data ->
  snd (render_openpose_json pose_data h)
  = {| world := world h;
       calls := calls h
                ++ flat_map (fun q => [DecodeJsonAsPoses q; draw_call q])
                            pose_data |}.
Proof.
  intros Hv. unfold render_openpose_json.
  destruct pose_data as [| pose rest].
  - destruct h. cbn. now rewrite app_nil_r.
  - unfold bind. rewrite render_loop_ok by exact Hv.
    cbn [snd]. now rewrite payload_calls_drawn by exact Hv.
Qed.

(** X10.  A payload that decodes to no pose at all, human or animal, is
    not rejected and not skipped: it is handed to the animal drawing
    routine with an empty list, and the raster that routine gives is the
    image of the response. *)
Theorem render_blank_payload (pose : PoseData) (H W : Z) (h : Host) :
  decode_json_as_poses pose = ([], [], H, W) ->
  render_openpose_json [pose] h
  = (inr (<[ "info" := VStr "Success" ]>
            {[ "images" :=
                 VStrList [encode_np_to_base64 (draw_animalposes [] H W)] ]}),
     {| world := world h;
        calls := calls h ++ [DecodeJsonAsPoses pose;
                             DrawAnimalposes [] H W] |}).
Proof.
  intros Hd.
  assert (Hm : mixed pose = false) by (unfold mixed; now rewrite Hd).
  unfold render_openpose_json, bind.
  rewrite render_loop_ok by (repeat constructor; exact Hm).
  cbn [map flat_map app]. unfold payload_calls, rendered, draw_call.
  rewrite Hm, Hd. cbn [app]. reflexivity.
Qed.

(** X11.  A response of [render_openpose_json] has the key "images"
    exactly when the list of payloads is not empty: on the empty list its
    only key is "info", with the text "No pose data detected."; otherwise
    its keys are "images" and "info", with one image per payload. *)
Theorem render_response_keys (pose_data : list PoseData) (h : Host)
    (resp : Response) (h' : Host) :
  render_openpose_json pose_data h = (inr resp, h') ->
  (pose_data = []
   /\ dom resp = ({[ "info" ]} : gset string)
   /\ resp !! "info" = Some (VStr "No pose data detected."))
  \/ (pose_data <> []
      /\ dom resp = ({[ "images"; "info" ]} : gset string)
      /\ resp !! "info" = Some (VStr "Success")
      /\ exists images, resp !! "images" = Some (VStrList images)
                        /\ length images = length pose_data).
Proof.
  intros E. destruct pose_data as [| pose rest].
  - left. injection E as <- _. unfold Response.
    split; [reflexivity |]. split; [apply dom_singleton_L |].
    simplify_map_eq; reflexivity.
  - right. split; [discriminate |].
    destruct (payloads_all_or_some (pose :: rest)) as [F | X].
    + unfold render_openpose_json, bind in E.
      rewrite render_loop_ok in E by exact F.
      injection E as <- _. unfold Response.
      split; [rewrite dom_insert_L, dom_singleton_L; set_solver |].
      split; [simplify_map_eq; reflexivity |].
      eexists. split; [simplify_map_eq; reflexivity |].
      cbn [app length]. now rewrite length_map.
    + unfold render_openpose_json, bind in E.
      destruct (render_loop_fail (pose :: rest) [] h X) as [h1 E1].
      rewrite E1 in E. discriminate E.
Qed.

End RenderMore.

(** ** More about the encoding helpers *)
Module Base64More.
Import Base64 Base64Facts.

Lemma b64encode_length (bs : list byte) :
  length (b64encode bs) = 4 * ((length bs + 2) / 3).
Proof.
  induction bs as [| a | a b | a b c rest IH] using list_ind3.
  - reflexivity.
  - reflexivity.
  - reflexivity.
  - cbn [b64encode sextets app length]. rewrite IH.
    replace (S (S (S (length rest))) + 2) with (length rest + 2 + 1 * 3)
      by lia.
    rewrite Nat.div_add by discriminate. lia.
Qed.

Lemma char_of_in_alphabet (i : N) : (i < 64)%N -> In (char_of i) alphabet.
Proof.
  intros L. unfold char_of. apply nth_In.
  change (length alphabet) with 64. lia.
Qed.

Lemma b64encode_alphabet (bs : list byte) :
  Forall (fun c => In c alphabet \/ c = pad) (b64encode bs).
Proof.
  assert (Hc : forall i, (i < 64)%N -> In (char_of i) alphabet \/ char_of i = pad)
    by (intros i L; left; now apply char_of_in_alphabet).
  assert (Hp : In pad alphabet \/ pad = pad) by (right; reflexivity).
  induction bs as [| a | a b | a b c rest IH] using list_ind3.
  - apply Forall_nil_2.
  - cbn [b64encode]. pose proof (group24_lt a "000"%byte "000"%byte).
    apply Forall_cons_2; [apply Hc; lia |].
    apply Forall_cons_2; [apply Hc; lia |].
    apply Forall_cons_2; [exact Hp |].
    apply Forall_cons_2; [exact Hp |]. apply Forall_nil_2.
  - cbn [b64encode]. pose proof (group24_lt a b "000"%byte).
    apply Forall_cons_2; [apply Hc; lia |].
    apply Forall_cons_2; [apply Hc; lia |].
    apply Forall_cons_2; [apply Hc; lia |].
    apply Forall_cons_2; [exact Hp |]. apply Forall_nil_2.
  - cbn [b64encode sextets app]. pose proof (group24_lt a b c).
    apply Forall_cons_2; [apply Hc; lia |].
    apply Forall_cons_2; [apply Hc; lia |].
    apply Forall_cons_2; [apply Hc; lia |].
    apply Forall_cons_2; [apply Hc; lia |]. exact IH.
Qed.

Lemma string_of_list_byte_length (bs : list byte) :
  String.length (String.string_of_list_byte bs) = length bs.
Proof.
  unfold String.string_of_list_byte.
  induction bs as [| b bs IH]; [reflexivity |].
  cbn [map String.string_of_list_ascii String.length length]. now f_equal.
Qed.

End Base64More.

Section EncodeMore.

Context {O : Opaque} {C : Collaborators}.

Lemma encode_tensor_bytes (obj : PyObj) :
  encode_utf8 (encode_tensor_to_base64 obj)
  = Base64.b64encode (torch_save obj).
Proof.
  unfold encode_tensor_to_base64, encode_utf8, decode_utf8.
  rewrite String.list_byte_of_string_of_list_byte.
  unfold BytesIO.getvalue, BytesIO.seek, BytesIO.write, BytesIO.new.
  cbn [BytesIO.contents BytesIO.pos length Nat.sub replicate take drop app].
  now rewrite drop_nil, app_nil_r.
Qed.

(** X12.  The string [encode_tensor_to_base64] returns is four characters
    for every three bytes [torch.save] wrote, the last group rounded up. *)
Theorem encode_tensor_to_base64_length (obj : PyObj) :
  String.length (encode_tensor_to_base64 obj)
  = 4 * ((length (torch_save obj) + 2) / 3).
Proof.
  rewrite <- Base64More.b64encode_length, <- encode_tensor_bytes.
  unfold encode_utf8.
  rewrite <- (Base64More.string_of_list_byte_length
                (String.list_byte_of_string (encode_tensor_to_base64 obj))).
  now rewrite String.string_of_list_byte_of_string.
Qed.

(** X13.  [encode_tensor_to_base64] loses nothing of what [torch.save]
    wrote: two objects with the same string have the same serialized
    bytes. *)
Theorem encode_tensor_to_base64_injective (obj1 obj2 : PyObj) :
  encode_tensor_to_base64 obj1 = encode_tensor_to_base64 obj2 ->
  torch_save obj1 = torch_save obj2.
Proof.
  intros E. apply (f_equal encode_utf8) in E.
  rewrite !encode_tensor_bytes in E.
  apply (f_equal Base64.b64decode) in E.
  rewrite !Base64Facts.b64decode_b64encode in E. congruence.
Qed.

(** X14.  The string [encode_tensor_to_base64] returns is made of the 64
    characters of the base64 alphabet and the padding character "=", all
    of them ASCII. *)
Theorem encode_tensor_to_base64_alphabet (obj : PyObj) :
  Forall (fun c => (In c Base64.alphabet \/ c = Base64.pad)
                   /\ (Byte.to_N c < 128)%N)
         (encode_utf8 (encode_tensor_to_base64 obj)).
Proof.
  rewrite encode_tensor_bytes. apply Forall_and. split.
  - apply Base64More.b64encode_alphabet.
  - apply Base64Facts.b64encode_ascii.
Qed.

End EncodeMore.

(** ** The listing of control types and the mounting of the API *)
Section ListingFacts.

Import ControlTypes.

(** X15.  The response of [control_types] has the single key
    "control_types", under which there is exactly one entry per key of
    [preprocessor_filters]; the entry of a control type has exactly the
    four keys "module_list", "model_list", "default_option" and
    "default_model", filled from what [select_control_type] gives for
    that control type. *)
Theorem control_types_entries
    (select_control_type :
       string -> list string * list string * string * string)
    (preprocessor_filters : gmap string string) :
  dom (control_types select_control_type preprocessor_filters)
  = ({[ "control_types" ]} : gset string)
  /\ exists inner,
       control_types select_control_type preprocessor_filters
         !! "control_types" = Some inner
       /\ dom inner = dom preprocessor_filters
       /\ forall control_type,
            control_type ∈ dom preprocessor_filters ->
            exists entry,
              inner !! control_type = Some entry
              /\ dom entry = ({[ "module_list"; "model_list";
                                 "default_option"; "default_model" ]}
                              : gset string)
              /\ entry !! "module_list"
                 = Some (VList (select_control_type control_type).1.1.1)
              /\ entry !! "model_list"
                 = Some (VList (select_control_type control_type).1.1.2)
              /\ entry !! "default_option"
                 = Some (VName (select_control_type control_type).1.2)
              /\ entry !! "default_model"
                 = Some (VName (select_control_type control_type).2).
Proof.
  unfold control_types. split; [apply dom_singleton_L |].
  eexists. split; [apply lookup_singleton_eq |]. split.
  - apply dom_imap_L. intros ct. rewrite elem_of_dom. split.
    + intros [x Hx]. exists x. split; [exact Hx |].
      destruct (select_control_type ct) as [[[a b] c] d]. eauto.
    + intros (x & Hx & _). eauto.
  - intros ct Hct. apply elem_of_dom in Hct as [x Hx].
    rewrite map_lookup_imap, Hx. cbn.
    destruct (select_control_type ct) as [[[a b] c] d]. cbn.
    eexists. split; [reflexivity |]. unfold format_control_type.
    split; [rewrite !dom_insert_L, dom_singleton_L; set_solver |].
    repeat split; simplify_map_eq; reflexivity.
Qed.

Import Mount.

(** X16.  The [try] statement that mounts the API lets no instance of
    [Exception] out, whether the import or the registration raises it: it
    logs the warning "Unable to mount ControlNet API." instead, and it
    logs it in no other case.  The registration is attempted exactly when
    the import raised nothing.  An exception outside [Exception] is let
    through, without a warning. *)
Theorem mount_swallows_Exception
    (import_raises on_app_started_raises : option Raised) :
  let reached :=
    match import_raises with
    | Some e => Some e
    | None => on_app_started_raises
    end in
  (forall name,
     fst (mount import_raises on_app_started_raises) <> Some (OfException name))
  /\ (In (LoggerWarn "Unable to mount ControlNet API.")
         (snd (mount import_raises on_app_started_raises))
      <-> exists name, reached = Some (OfException name))
  /\ (In OnAppStarted (snd (mount import_raises on_app_started_raises))
      <-> import_raises = None)
  /\ (forall name,
        fst (mount import_raises on_app_started_raises)
        = Some (OfBaseExceptionOnly name)
        <-> reached = Some (OfBaseExceptionOnly name)).
Proof.
  destruct import_raises as [[n | n] |];
    [| | destruct on_app_started_raises as [[n | n] |]]; cbn;
    (split; [intros name; discriminate |]);
    (split; [split; [intros Hin | intros [name Hn]] |]);
    try (split; [split; [intros Hin | intros Hn] |]);
    try (intros name; split; intros Hn);
    try discriminate; try congruence; eauto;
    try (repeat destruct Hin as [Hin | Hin]; try discriminate Hin;
         try contradiction).
  all: try (right; left; reflexivity).
  all: try (right; right; left; reflexivity).
  all: try (left; reflexivity).
Qed.

End ListingFacts.

(** ** The further properties on the small host *)

(** X1 on a request with an unknown module and no image. *)
Lemma detect_rejection_detail_witness :
  Demo2.run "none" []
  = (inl (HTTPException 422 "Module not available"), Demo.fresh).
Proof.
  apply (proj2 (detect_rejection_detail Demo.cached_cn_preprocessors
                  Demo.global_state "none" [] (-1) (-1)%Z (-1)%Z false
                  Demo.fresh 422 "Module not available" Demo.fresh)).
  split; [reflexivity |]. split; [reflexivity |].
  left. split; [vm_compute; reflexivity | reflexivity].
Defined.

(** X4 on a pose request: the hook resets the world the two runs left. *)
Lemma detect_host_after_success_witness :
  world (snd (Demo2.run "pose" ["a"; "b"])) = 0
  /\ last (calls (snd (Demo2.run "pose" ["a"; "b"]))) = Some (Unload "openpose")
  /\ length (calls (snd (Demo2.run "pose" ["a"; "b"]))) = 8.
Proof.
  unfold Demo2.run.
  rewrite (detect_host_after_success Demo.cached_cn_preprocessors
             Demo.global_state "pose" ["a"; "b"] (-1) (-1)%Z (-1)%Z false
             Demo.fresh Demo.openpose).
  - repeat split; vm_compute; reflexivity.
  - vm_compute. reflexivity.
  - apply demo_not_excluded. vm_compute. reflexivity.
  - discriminate.
  - intros _. cbn. repeat constructor; discriminate.
Defined.

(** X5 on a pose module that never calls the callback. *)
Lemma detect_stops_at_silent_run_witness :
  fst (Demo2.run "openpose_hand" ["a"; "b"]) = inl AssertionError
  /\ world (snd (Demo2.run "openpose_hand" ["a"; "b"])) = 1
  /\ length (calls (snd (Demo2.run "openpose_hand" ["a"; "b"]))) = 5.
Proof.
  unfold Demo2.run.
  rewrite (detect_stops_at_silent_run Demo.cached_cn_preprocessors
             Demo.global_state "openpose_hand" [] "a" ["b"] (-1) (-1)%Z
             (-1)%Z false Demo.fresh Demo.openpose_silent).
  - repeat split; vm_compute; reflexivity.
  - vm_compute. reflexivity.
  - apply demo_not_excluded. vm_compute. reflexivity.
  - vm_compute. reflexivity.
  - constructor.
  - reflexivity.
Defined.

(** X6 on an edge-detection request. *)
Lemma detect_response_keys_witness :
  exists resp h',
    Demo2.run "canny" ["a"] = (inr resp, h')
    /\ dom resp = ({[ "info"; "images" ]} : gset string).
Proof.
  destruct (Demo2.run "canny" ["a"]) as [[e | resp] h'] eqn:E.
  - vm_compute in E. discriminate E.
  - exists resp, h'. split; [reflexivity |].
    destruct (detect_response_keys Demo.cached_cn_preprocessors
                Demo.global_state "canny" ["a"] (-1) (-1)%Z (-1)%Z false
                Demo.fresh resp h' E) as [[Hd _] | [[_ Ho] | Hd]].
    + exact Hd.
    + vm_compute in Ho. discriminate Ho.
    + exfalso. vm_compute in E. injection E as <- _.
      apply (f_equal (fun keys : gset string => bool_decide ("tensor" ∈ keys)))
        in Hd.
      vm_compute in Hd. discriminate Hd.
Defined.

(** X7 on a mixed payload between two others. *)
Lemma render_stops_at_mixed_witness :
  fst (render_openpose_json
         [Demo.human_payload; Demo.mixed_payload; Demo.animal_payload]
         Demo.fresh) = inl AssertionError
  /\ length (calls (snd (render_openpose_json
                           [Demo.human_payload; Demo.mixed_payload;
                            Demo.animal_payload] Demo.fresh))) = 3.
Proof.
  rewrite (render_stops_at_mixed [Demo.human_payload] Demo.mixed_payload
             [Demo.animal_payload] Demo.fresh).
  - split; reflexivity.
  - repeat constructor.
  - reflexivity.
Defined.

(** X8 on a human payload followed by an animal payload. *)
Lemma render_host_after_success_witness :
  snd (render_openpose_json [Demo.human_payload; Demo.animal_payload]
         Demo.fresh)
  = {| world := 0;
       calls := [DecodeJsonAsPoses Demo.human_payload;
                 DrawPoses [[1; 2; 3]%Z] 768 512;
                 DecodeJsonAsPoses Demo.animal_payload;
                 DrawAnimalposes [[4; 5; 6]%Z] 512 512] |}.
Proof.
  rewrite (render_host_after_success
             [Demo.human_payload; Demo.animal_payload] Demo.fresh).
  - reflexivity.
  - repeat constructor.
Defined.

(** X10 on a payload with nobody in it. *)
Lemma render_blank_payload_witness :
  fst (render_openpose_json [Demo2.blank_payload] Demo.fresh)
  = inr (<[ "info" := VStr "Success" ]>
           {[ "images" := VStrList ["b64:pil:animals:0"] ]}).
Proof.
  rewrite (render_blank_payload Demo2.blank_payload 48 64 Demo.fresh).
  - reflexivity.
  - reflexivity.
Defined.

(** X11 on a single human payload. *)
Lemma render_response_keys_witness :
  exists resp h',
    render_openpose_json [Demo.human_payload] Demo.fresh = (inr resp, h')
    /\ dom resp = ({[ "images"; "info" ]} : gset string).
Proof.
  destruct (render_openpose_json [Demo.human_payload] Demo.fresh)
    as [[e | resp] h'] eqn:E.
  - vm_compute in E. discriminate E.
  - exists resp, h'. split; [reflexivity |].
    destruct (render_response_keys [Demo.human_payload] Demo.fresh resp h' E)
      as [[Hn _] | (_ & Hd & _)]; [discriminate Hn | exact Hd].
Defined.

(** X13 on a string and a tensor that the saver of the third host writes
    as the same seven bytes, and so as the same twelve characters. *)
Lemma encode_tensor_to_base64_injective_witness :
  encode_tensor_to_base64 (C := Demo3.collaborators) Demo3.sample_text
  = "bGlnaHQgdw=="
  /\ encode_tensor_to_base64 (C := Demo3.collaborators) Demo.sample_tensor
     = "bGlnaHQgdw=="
  /\ torch_save (Collaborators := Demo3.collaborators) Demo3.sample_text
     = torch_save (Collaborators := Demo3.collaborators) Demo.sample_tensor
  /\ length (torch_save (Collaborators := Demo3.collaborators)
               Demo3.sample_text) = 7.
Proof.
  split; [reflexivity |]. split; [reflexivity |]. split; [| reflexivity].
  apply (encode_tensor_to_base64_injective (C := Demo3.collaborators)
           Demo3.sample_text Demo.sample_tensor).
  reflexivity.
Defined.
